(** * Hydroponic expert system: the growth simulation service

    A shallow embedding of [src/services/simulationService.ts] and of the
    data declarations it reads ([models/Parameters.ts], the [ParameterRange],
    [CropOptimalParameters], [GrowthTime] and [CropConfig] interfaces).

    Numbers.  A JavaScript [number] is modelled as a real number: the
    embedding has no rounding error, no NaN and no infinities.  The two
    operations of the service whose IEEE result may fail to be a real number
    (a division, [Math.pow]) are therefore partial here, and the functions
    that use them live in a small completion monad.  [Math.round] yields a
    [Z]; it is injected back with [IZR] wherever the source keeps computing
    with it.

    The source computes in IEEE doubles.  Where its answer can turn on a
    rounding (a threshold met exactly, a score within one unit in the last
    place of 1, a product of decimal factors before a [Math.round]), the
    theorems below are stated so that the rounding does not decide them:
    with a margin around the threshold, with non-strict bounds, or for whole
    numbers.

    Strings.  The messages pushed to [issues] and [recommendations] are
    template strings; they are kept as structured values carrying the
    interpolated fields, not rendered to text. *)

From Stdlib Require Import Reals Lra Lia ZArith.
From stdpp Require Import base option list gmap strings.

Local Open Scope R_scope.

(** ** Decidable comparisons on reals, used by every [if] of the source *)

#[global] Instance Rlt_decision (x y : R) : Decision (x < y) := Rlt_dec x y.
#[global] Instance Rle_decision (x y : R) : Decision (x <= y) := Rle_dec x y.
#[global] Instance Rgt_decision (x y : R) : Decision (x > y) := Rgt_dec x y.
#[global] Instance Rge_decision (x y : R) : Decision (x >= y) := Rge_dec x y.
#[global] Instance Req_decision : EqDecision R := Req_dec_T.

(** ** Completions *)

(** A thrown JavaScript error, identified by its [name] property. *)
Record JsError := { errorName : string; errorDetail : string }.

(** How an evaluation ends: with a value, with a thrown error, or by leaving
    the real numbers ([NotReal]: the IEEE result would be an infinity or a
    NaN, or the operation is outside the fragment modelled here). *)
Inductive completion (A : Type) : Type :=
| Normal (a : A)
| Throw (e : JsError)
| NotReal.

Arguments Normal {A} a.
Arguments Throw {A} e.
Arguments NotReal {A}.

#[global] Instance completion_ret : MRet completion := fun _ a => Normal a.
#[global] Instance completion_bind : MBind completion := fun _ _ f c =>
  match c with
  | Normal a => f a
  | Throw e => Throw e
  | NotReal => NotReal
  end.

(** [Array.prototype.forEach] with a callback that updates captured
    variables: the captured state is threaded through the iterations. *)
Fixpoint forEach {A S : Type} (l : list A) (f : A -> S -> completion S) (s : S)
  : completion S :=
  match l with
  | [] => Normal s
  | x :: l' => s' ← f x s; forEach l' f s'
  end.

(** ** The [Math] functions used by the service *)

Module Math.

(** [Math.round]: the nearest integer, ties towards +infinity. *)
Definition round (x : R) : Z := Zfloor (x + / 2).

Definition max (a b : R) : R := Rmax a b.
Definition min (a b : R) : R := Rmin a b.
Definition abs (x : R) : R := Rabs x.

(** [a / b].  JavaScript never throws here; a zero divisor gives an infinity
    or NaN, which is [NotReal] in this model. *)
Definition div (a b : R) : completion R :=
  if decide (b = 0) then NotReal else Normal (a / b).

(** [Math.pow] on a positive base.  Other bases are not modelled. *)
Definition pow (b e : R) : completion R :=
  if decide (0 < b) then Normal (Rpower b e) else NotReal.

End Math.

(** [function clamp(v, a = 0, b = 1)] *)
Definition clamp (v a b : R) : R := Math.max a (Math.min b v).

(** ** Data model *)

(** [ParameterKey]: the keys shared by [Parameters] and
    [CropOptimalParameters]. *)
Inductive ParameterKey : Set :=
| ph | ec | airTemperature | solutionTemperature | lightIntensity
| co2Level | humidity | waterLevel | oxygenLevel.

#[global] Instance ParameterKey_eq_dec : EqDecision ParameterKey.
Proof. solve_decision. Defined.

(** The property name behind a key, as used to index [deviations]. *)
Definition keyString (key : ParameterKey) : string :=
  match key with
  | ph => "ph"
  | ec => "ec"
  | airTemperature => "airTemperature"
  | solutionTemperature => "solutionTemperature"
  | lightIntensity => "lightIntensity"
  | co2Level => "co2Level"
  | humidity => "humidity"
  | waterLevel => "waterLevel"
  | oxygenLevel => "oxygenLevel"
  end.

Module ParameterRange.
Record t : Type := mk {
  min : R;
  max : R;
  criticalMin : option R;
  criticalMax : option R
}.
End ParameterRange.

Module CropOptimalParameters.
Record t : Type := mk {
  ph : ParameterRange.t;
  ec : ParameterRange.t;
  airTemperature : ParameterRange.t;
  solutionTemperature : ParameterRange.t;
  lightIntensity : ParameterRange.t;
  co2Level : ParameterRange.t;
  humidity : ParameterRange.t;
  waterLevel : ParameterRange.t;
  oxygenLevel : ParameterRange.t
}.

End CropOptimalParameters.

(** [optimal[key]] *)
Definition rangeOf (o : CropOptimalParameters.t) (key : ParameterKey)
  : ParameterRange.t :=
  match key with
  | ph => CropOptimalParameters.ph o
  | ec => CropOptimalParameters.ec o
  | airTemperature => CropOptimalParameters.airTemperature o
  | solutionTemperature => CropOptimalParameters.solutionTemperature o
  | lightIntensity => CropOptimalParameters.lightIntensity o
  | co2Level => CropOptimalParameters.co2Level o
  | humidity => CropOptimalParameters.humidity o
  | waterLevel => CropOptimalParameters.waterLevel o
  | oxygenLevel => CropOptimalParameters.oxygenLevel o
  end.

Module GrowthTime.
Record t : Type := mk {
  optimal : R;
  max : R
}.
End GrowthTime.

Module CropConfig.
Record t : Type := mk {
  name : string;
  optimal : CropOptimalParameters.t;
  growthTime : GrowthTime.t;
  maxYield : R
}.
End CropConfig.

Module Parameters.
Record t : Type := mk {
  cropType : string;
  ph : R;
  ec : R;
  airTemperature : R;
  solutionTemperature : R;
  lightIntensity : R;
  co2Level : R;
  humidity : R;
  waterLevel : R;
  oxygenLevel : R
}.
End Parameters.

(** [params[key] as number] *)
Definition valueOf (params : Parameters.t) (key : ParameterKey) : R :=
  match key with
  | ph => Parameters.ph params
  | ec => Parameters.ec params
  | airTemperature => Parameters.airTemperature params
  | solutionTemperature => Parameters.solutionTemperature params
  | lightIntensity => Parameters.lightIntensity params
  | co2Level => Parameters.co2Level params
  | humidity => Parameters.humidity params
  | waterLevel => Parameters.waterLevel params
  | oxygenLevel => Parameters.oxygenLevel params
  end.

(** The template strings pushed by the service, with their interpolated
    fields in source order. *)
Inductive message : Type :=
| CriticalIssue (name : string) (value cmin cmax : R)
    (* `${name}: ${value} вне допустимого диапазона (${cmin}–${cmax}) — риск гибели.` *)
| YieldIssue (name : string) (value min max : R) (impactPct : Z)
    (* `${name}: ${value} вне оптимума (${min}–${max}), влияние ≈ ${impactPct}%.` *)
| IncreaseRec (name : string) (min max value : R)
    (* `Увеличьте ${name} до ${min}–${max} (сейчас ${value}).` *)
| DecreaseRec (name : string) (min max value : R)
    (* `Уменьшите ${name} до ${min}–${max} (сейчас ${value}).` *)
| BalanceRec.
    (* the fixed pH/EC advisory *)

Module SimulationResult.
Record t : Type := mk {
  isViable : bool;
  yieldPercentage : Z;
  expectedGrams : Z;
  yieldPerSquareMeter : R;
  growthTime : R;
  issues : list message;
  recommendations : list message
}.
End SimulationResult.

(** ** SimulationService *)

Definition PARAM_WEIGHTS (key : ParameterKey) : R :=
  match key with
  | ph => 1.2
  | ec => 1.5
  | airTemperature => 1.0
  | solutionTemperature => 1.0
  | lightIntensity => 1.3
  | co2Level => 0.9
  | humidity => 0.6
  | waterLevel => 0.7
  | oxygenLevel => 1.4
  end.

Definition parameterKeys : list ParameterKey :=
  [ph; ec; airTemperature; solutionTemperature;
   lightIntensity; co2Level; humidity; waterLevel; oxygenLevel].

Definition getParameterName (key : ParameterKey) : string :=
  match key with
  | ph => "pH"
  | ec => "EC"
  | airTemperature => "Температура воздуха"
  | solutionTemperature => "Температура раствора"
  | lightIntensity => "Интенсивность света"
  | co2Level => "Уровень CO2"
  | humidity => "Влажность"
  | waterLevel => "Уровень воды"
  | oxygenLevel => "Уровень кислорода"
  end.

(** [limits.criticalMin ?? limits.min] and [limits.criticalMax ?? limits.max] *)
Definition cminOf (limits : ParameterRange.t) : R :=
  default (ParameterRange.min limits) (ParameterRange.criticalMin limits).
Definition cmaxOf (limits : ParameterRange.t) : R :=
  default (ParameterRange.max limits) (ParameterRange.criticalMax limits).

(** The callback of [checkViability]'s [forEach].  It captures [isViable]
    and the shared [issues] array, which make up the threaded state. *)
Definition viabilityStep (params : Parameters.t) (config : CropConfig.t)
    (st : bool * list message) (key : ParameterKey) : bool * list message :=
  let value := valueOf params key in
  let limits := rangeOf (CropConfig.optimal config) key in
  let cmin := cminOf limits in
  let cmax := cmaxOf limits in
  if decide (value < cmin \/ value > cmax)
  then (false, st.2 ++ [CriticalIssue (getParameterName key) value cmin cmax])
  else st.

(** [checkViability]: returns [isViable] and the array [issues] after the
    pushes. *)
Definition checkViability (params : Parameters.t) (config : CropConfig.t)
    (issues : list message) : bool * list message :=
  fold_left (viabilityStep params config) parameterKeys (true, issues).

(** [computeLinearNormalized].  The quotient is exact here; the source's is
    rounded, and can be exactly 1 just outside the optimal range. *)
Definition computeLinearNormalized (value min max cmin cmax : R)
  : completion R :=
  if decide (value < min) then
    if decide (cmin >= min) then Normal 0
    else norm ← Math.div (value - cmin) (min - cmin);
         Normal (clamp norm 0 1)
  else if decide (value > max) then
    if decide (cmax <= max) then Normal 0
    else norm ← Math.div (cmax - value) (cmax - max);
         Normal (clamp norm 0 1)
  else Normal 1.

(** The variables captured by the callback of [calculateYield]'s [forEach]:
    [yieldMultiplier], the [deviations] object and the shared [issues]. *)
Record YieldState : Type := mkYieldState {
  yieldMultiplier : R;
  deviations : gmap string R;
  yieldIssues : list message
}.

(** The [impact] constant of that callback (steps 1 and 2 of its body), for
    a value outside the optimal range. *)
Definition impactAt (key : ParameterKey) (value : R) (limits : ParameterRange.t)
  : completion R :=
  let cmin := cminOf limits in
  let cmax := cmaxOf limits in
  linear ← computeLinearNormalized value (ParameterRange.min limits)
             (ParameterRange.max limits) cmin cmax;
  let weight := PARAM_WEIGHTS key in
  Math.pow (Math.max 0.01 linear) (1 + weight).

(** One call of that callback. *)
Definition yieldStep (params : Parameters.t) (config : CropConfig.t)
    (key : ParameterKey) (st : YieldState) : completion YieldState :=
  let value := valueOf params key in
  let limits := rangeOf (CropConfig.optimal config) key in
  if decide (value >= ParameterRange.min limits
             /\ value <= ParameterRange.max limits)
  then
    Normal (mkYieldState (yieldMultiplier st)
                         (<[keyString key := 0]> (deviations st))
                         (yieldIssues st))
  else
    impact ← impactAt key value limits;
    Normal (mkYieldState
              (yieldMultiplier st * impact)
              (<[keyString key := Math.abs (1 - impact)]> (deviations st))
              (if decide (impact < 1)
               then yieldIssues st ++
                      [YieldIssue (getParameterName key) value
                         (ParameterRange.min limits) (ParameterRange.max limits)
                         (Math.round (impact * 100))]
               else yieldIssues st)).

(** [calculateYield] up to and including the interaction penalty: the final
    value of [yieldMultiplier], with the issues pushed on the way. *)
Definition finalYieldMultiplier (params : Parameters.t) (config : CropConfig.t)
    (issues : list message) : completion (R * list message) :=
  st ← forEach parameterKeys (yieldStep params config)
         (mkYieldState 1.0 ∅ issues);
  let ecDev := default 0 (deviations st !! "ec") in
  let phDev := default 0 (deviations st !! "ph") in
  let interactionPenalty := 0.9 in
  Normal (if decide (ecDev > 0.2 /\ phDev > 0.15)
          then yieldMultiplier st * interactionPenalty
          else yieldMultiplier st,
          yieldIssues st).

(** [calculateYield]: [Math.max(0, Math.round(yieldMultiplier * 100))]. *)
Definition calculateYield (params : Parameters.t) (config : CropConfig.t)
    (issues : list message) : completion (Z * list message) :=
  r ← finalYieldMultiplier params config issues;
  Normal (Z.max 0 (Math.round (r.1 * 100)), r.2).

(** [calculateGrowthTime].  The multiplier is the exact product here (1.5 *
    1.2 is 1.8, the source's doubles give 1.7999999999999998); the two agree
    after [Math.round] for a whole number of optimal days. *)
Definition calculateGrowthTime (params : Parameters.t) (config : CropConfig.t)
  : R :=
  let optimal := GrowthTime.optimal (CropConfig.growthTime config) in
  let max := GrowthTime.max (CropConfig.growthTime config) in
  let multiplier := 1.0 in
  let multiplier :=
    if decide (Parameters.airTemperature params <
               ParameterRange.min
                 (CropOptimalParameters.airTemperature (CropConfig.optimal config)))
    then multiplier * 1.5 else multiplier in
  let multiplier :=
    if decide (Parameters.lightIntensity params <
               ParameterRange.min
                 (CropOptimalParameters.lightIntensity (CropConfig.optimal config)))
    then multiplier * 1.3 else multiplier in
  let multiplier :=
    if decide (Parameters.co2Level params <
               ParameterRange.min
                 (CropOptimalParameters.co2Level (CropConfig.optimal config)))
    then multiplier * 1.2 else multiplier in
  Math.min (IZR (Math.round (optimal * multiplier))) max.

(** The callback of [generateRecommendations]'s [forEach]. *)
Definition recommendationStep (params : Parameters.t) (config : CropConfig.t)
    (recs : list message) (key : ParameterKey) : list message :=
  let value := valueOf params key in
  let limits := rangeOf (CropConfig.optimal config) key in
  if decide (value < ParameterRange.min limits) then
    recs ++ [IncreaseRec (getParameterName key)
               (ParameterRange.min limits) (ParameterRange.max limits) value]
  else if decide (value > ParameterRange.max limits) then
    recs ++ [DecreaseRec (getParameterName key)
               (ParameterRange.min limits) (ParameterRange.max limits) value]
  else recs.

(** [generateRecommendations]: returns the array [recs] after the pushes.
    The two distances of the advisory are exact here; the source compares
    rounded ones (for pH 6.4 and a midpoint of 6 it has 0.40000000000000036,
    which passes its test against 0.4). *)
Definition generateRecommendations (params : Parameters.t)
    (config : CropConfig.t) (recs : list message) : list message :=
  let recs := fold_left (recommendationStep params config) parameterKeys recs in
  let ec := Parameters.ec params in
  let ph := Parameters.ph params in
  let ecRange := CropOptimalParameters.ec (CropConfig.optimal config) in
  let phRange := CropOptimalParameters.ph (CropConfig.optimal config) in
  if decide (Math.abs (ec - (ParameterRange.min ecRange
                             + ParameterRange.max ecRange) / 2) > 0.8
             /\ Math.abs (ph - (ParameterRange.min phRange
                                + ParameterRange.max phRange) / 2) > 0.4)
  then recs ++ [BalanceRec]
  else recs.

(** The error of reading a property of [undefined]. *)
Definition TypeError (detail : string) : JsError :=
  {| errorName := "TypeError"; errorDetail := detail |}.

(** [simulateGrowth].  [CROP_PARAMETERS] (module [constants/cropParameters])
    is a parameter: an object from crop identifiers to configurations.  For
    a key the object does not have, [cropParams] is [undefined]; the first
    thing evaluated with it is [config.optimal] in the first callback of
    [checkViability], which throws. *)
Definition simulateGrowth (CROP_PARAMETERS : gmap string CropConfig.t)
    (params : Parameters.t) : completion SimulationResult.t :=
  match CROP_PARAMETERS !! Parameters.cropType params with
  | None =>
      Throw (TypeError "Cannot read properties of undefined (reading 'optimal')")
  | Some cropParams =>
      let v := checkViability params cropParams [] in
      let isViable := v.1 in
      y ← calculateYield params cropParams v.2;
      let yieldPercentage := y.1 in
      let growthTime := calculateGrowthTime params cropParams in
      let maxYield := CropConfig.maxYield cropParams in
      let expectedGrams :=
        Math.round ((if decide (maxYield = 0) then 0 else maxYield)
                    * (IZR yieldPercentage / 100)) in
      let yieldPerSquareMeter :=
        IZR (Math.round (IZR expectedGrams / 1000 * 100)) / 100 in
      let recommendations := generateRecommendations params cropParams [] in
      Normal (SimulationResult.mk isViable yieldPercentage expectedGrams
                yieldPerSquareMeter growthTime y.2 recommendations)
  end.

(** ** The formulas of the specification

    Closed forms following the words of the specification (sections 3 and
    4.2); the theorems below compare the service with them. *)

(** The invariant of a [ParameterRange]. *)
Definition validRange (limits : ParameterRange.t) : Prop :=
  ParameterRange.min limits <= ParameterRange.max limits
  /\ (forall c, ParameterRange.criticalMin limits = Some c ->
                c <= ParameterRange.min limits)
  /\ (forall c, ParameterRange.criticalMax limits = Some c ->
                c >= ParameterRange.max limits).

(** The invariants of a [CropProfile]. *)
Definition validProfile (config : CropConfig.t) : Prop :=
  (forall key, validRange (rangeOf (CropConfig.optimal config) key))
  /\ GrowthTime.optimal (CropConfig.growthTime config)
     <= GrowthTime.max (CropConfig.growthTime config)
  /\ CropConfig.maxYield config >= 0.

(** The value lies within [[optimal.min, optimal.max]]. *)
Definition inOptimal (value : R) (limits : ParameterRange.t) : Prop :=
  value >= ParameterRange.min limits /\ value <= ParameterRange.max limits.

(** The value falls strictly outside the effective critical bounds. *)
Definition beyondCritical (value : R) (limits : ParameterRange.t) : Prop :=
  value < cminOf limits \/ value > cmaxOf limits.

(** The linear normalized score [L]. *)
Definition linearScore (value : R) (limits : ParameterRange.t) : R :=
  let min := ParameterRange.min limits in
  let max := ParameterRange.max limits in
  if decide (value < min) then
    if decide (cminOf limits >= min) then 0
    else clamp ((value - cminOf limits) / (min - cminOf limits)) 0 1
  else if decide (value > max) then
    if decide (cmaxOf limits <= max) then 0
    else clamp ((cmaxOf limits - value) / (cmaxOf limits - max)) 0 1
  else 1.

(** [impact = max(0.01, L) ^ (1 + weight)] *)
Definition impactFormula (key : ParameterKey) (value : R)
    (limits : ParameterRange.t) : R :=
  Rpower (Rmax 0.01 (linearScore value limits)) (1 + PARAM_WEIGHTS key).

(** The multiplicative contribution of one parameter: 1 inside the optimal
    range, its impact outside. *)
Definition contribution (params : Parameters.t) (config : CropConfig.t)
    (key : ParameterKey) : R :=
  let value := valueOf params key in
  let limits := rangeOf (CropConfig.optimal config) key in
  if decide (inOptimal value limits) then 1 else impactFormula key value limits.

(** [deviation[key] = |1 - impact|], 0 inside the optimal range. *)
Definition deviation (params : Parameters.t) (config : CropConfig.t)
    (key : ParameterKey) : R :=
  let value := valueOf params key in
  let limits := rangeOf (CropConfig.optimal config) key in
  if decide (inOptimal value limits) then 0
  else Rabs (1 - impactFormula key value limits).

(** The interaction factor: 0.9 when both deviations pass their thresholds,
    1 otherwise. *)
Definition interactionFactor (params : Parameters.t) (config : CropConfig.t)
  : R :=
  if decide (deviation params config ec > 0.2
             /\ deviation params config ph > 0.15)
  then 0.9 else 1.

(** The product of the nine contributions, in key order. *)
Definition impactProduct (params : Parameters.t) (config : CropConfig.t) : R :=
  fold_left Rmult (map (contribution params config) parameterKeys) 1.

(** The issue a parameter adds to the yield report, if any. *)
Definition yieldIssueOf (params : Parameters.t) (config : CropConfig.t)
    (key : ParameterKey) : list message :=
  let value := valueOf params key in
  let limits := rangeOf (CropConfig.optimal config) key in
  if decide (inOptimal value limits) then []
  else if decide (impactFormula key value limits < 1)
       then [YieldIssue (getParameterName key) value
               (ParameterRange.min limits) (ParameterRange.max limits)
               (Math.round (impactFormula key value limits * 100))]
       else [].

(** [yieldPercentage] in closed form. *)
Definition yieldPercentageOf (params : Parameters.t) (config : CropConfig.t)
  : Z :=
  Z.max 0 (Math.round (impactProduct params config
                       * interactionFactor params config * 100)).

(** The issue a parameter adds to the viability report, if any. *)
Definition criticalIssueOf (params : Parameters.t) (config : CropConfig.t)
    (key : ParameterKey) : list message :=
  let value := valueOf params key in
  let limits := rangeOf (CropConfig.optimal config) key in
  if decide (beyondCritical value limits)
  then [CriticalIssue (getParameterName key) value
          (cminOf limits) (cmaxOf limits)]
  else [].

(** The growth-time multiplier [m]. *)
Definition growthMultiplier (params : Parameters.t) (config : CropConfig.t)
  : R :=
  let o := CropConfig.optimal config in
  (if decide (Parameters.airTemperature params
              < ParameterRange.min (CropOptimalParameters.airTemperature o))
   then 1.5 else 1)
  * (if decide (Parameters.lightIntensity params
                < ParameterRange.min (CropOptimalParameters.lightIntensity o))
     then 1.3 else 1)
  * (if decide (Parameters.co2Level params
                < ParameterRange.min (CropOptimalParameters.co2Level o))
     then 1.2 else 1).

(** ** Sample data *)

(** A lettuce-like profile; every range satisfies the invariants. *)
Definition sampleOptimal : CropOptimalParameters.t :=
  CropOptimalParameters.mk
    (ParameterRange.mk 5.5 6.5 (Some 4) (Some 8))
    (ParameterRange.mk 1 2 (Some 0.5) (Some 3))
    (ParameterRange.mk 18 24 (Some 10) (Some 30))
    (ParameterRange.mk 18 22 (Some 15) (Some 28))
    (ParameterRange.mk 10000 15000 (Some 8000) (Some 35000))
    (ParameterRange.mk 600 1000 (Some 400) (Some 2000))
    (ParameterRange.mk 50 70 (Some 40) (Some 90))
    (ParameterRange.mk 80 100 (Some 40) None)
    (ParameterRange.mk 5 8 (Some 3) (Some 11)).

Definition sampleConfig : CropConfig.t :=
  CropConfig.mk "Салат" sampleOptimal (GrowthTime.mk 30 45) 200.

(** The default parameters of [GrowthModel]: all inside [sampleOptimal]. *)
Definition sampleParams : Parameters.t :=
  Parameters.mk "lettuce" 6.0 1.5 20 20 12000 800 60 100 6.

(** Humidity exactly on its critical minimum, everything else unchanged. *)
Definition boundaryParams : Parameters.t :=
  Parameters.mk "lettuce" 6.0 1.5 20 20 12000 800 40 100 6.

(** Air temperature below its optimal minimum. *)
Definition coldParams : Parameters.t :=
  Parameters.mk "lettuce" 6.0 1.5 15 20 12000 800 60 100 6.

(** The sample profile with a maximum growth time of forty and a half days. *)
Definition halfDayConfig : CropConfig.t :=
  CropConfig.mk "Салат" sampleOptimal (GrowthTime.mk 30 40.5) 200.

(** pH below its critical minimum. *)
Definition acidParams : Parameters.t :=
  Parameters.mk "lettuce" 3.5 1.5 20 20 12000 800 60 100 6.

(** A crop the simulator form offers but the registry does not have. *)
Definition arugulaParams : Parameters.t :=
  Parameters.mk "arugula" 6.0 1.5 20 20 12000 800 60 100 6.

(** A profile with a wide optimal EC range and a fractional optimal growth
    time; every invariant holds. *)
Definition wideConfig : CropConfig.t :=
  CropConfig.mk "Томаты"
    (CropOptimalParameters.mk
       (ParameterRange.mk 5.5 6.5 (Some 4) (Some 8))
       (ParameterRange.mk 1 3 (Some 0.5) (Some 4))
       (ParameterRange.mk 18 24 (Some 10) (Some 30))
       (ParameterRange.mk 18 22 (Some 15) (Some 28))
       (ParameterRange.mk 10000 15000 (Some 8000) (Some 35000))
       (ParameterRange.mk 600 1000 (Some 400) (Some 2000))
       (ParameterRange.mk 50 70 (Some 40) (Some 90))
       (ParameterRange.mk 80 100 (Some 40) None)
       (ParameterRange.mk 5 8 (Some 3) (Some 11)))
    (GrowthTime.mk 30.5 45) 200.

(** pH and EC on the lower ends of their optimal ranges in [wideConfig]. *)
Definition edgeParams : Parameters.t :=
  Parameters.mk "tomatoes" 5.5 1 20 20 12000 800 60 100 6.

Definition wideRegistry : gmap string CropConfig.t :=
  {[ "tomatoes" := wideConfig ]}.

(** Humidity exactly on its declared critical maximum, above its optimal
    range. *)
Definition upperBoundaryParams : Parameters.t :=
  Parameters.mk "lettuce" 6.0 1.5 20 20 12000 800 90 100 6.

(** Water level above its optimal maximum; the sample profile declares no
    critical maximum for it. *)
Definition overfilledParams : Parameters.t :=
  Parameters.mk "lettuce" 6.0 1.5 20 20 12000 800 60 101 6.

Definition sampleRegistry : gmap string CropConfig.t :=
  {[ "lettuce" := sampleConfig ]}.

(** ** Reading the reports *)

(** The message is a critical issue. *)
Definition isCriticalIssue (m : message) : Prop :=
  match m with
  | CriticalIssue _ _ _ _ => True
  | _ => False
  end.

(** The message is the yield issue of the parameter displayed as [name]. *)
Definition isYieldIssueOf (name : string) (m : message) : Prop :=
  match m with
  | YieldIssue n _ _ _ _ => n = name
  | _ => False
  end.

(** The message is a directive (raise or lower) for the parameter displayed
    as [name]. *)
Definition isDirectiveOf (name : string) (m : message) : Prop :=
  match m with
  | IncreaseRec n _ _ _ | DecreaseRec n _ _ _ => n = name
  | _ => False
  end.

(** The directive [generateRecommendations] pushes for one key, if any. *)
Definition directiveOf (params : Parameters.t) (config : CropConfig.t)
    (key : ParameterKey) : list message :=
  let value := valueOf params key in
  let limits := rangeOf (CropConfig.optimal config) key in
  if decide (value < ParameterRange.min limits) then
    [IncreaseRec (getParameterName key)
       (ParameterRange.min limits) (ParameterRange.max limits) value]
  else if decide (value > ParameterRange.max limits) then
    [DecreaseRec (getParameterName key)
       (ParameterRange.min limits) (ParameterRange.max limits) value]
  else [].

(** The second reading is, for every parameter, the same as the first or
    farther from the optimal range on the same side (a first value inside the
    optimal range may move anywhere). *)
Definition noCloser (config : CropConfig.t) (p1 p2 : Parameters.t) : Prop :=
  forall key,
    let limits := rangeOf (CropConfig.optimal config) key in
    let v1 := valueOf p1 key in
    let v2 := valueOf p2 key in
    v2 = v1
    \/ inOptimal v1 limits
    \/ (v2 <= v1 /\ v1 < ParameterRange.min limits)
    \/ (ParameterRange.max limits < v1 /\ v1 <= v2).

(** ** GrowthModel ([models/GrowthModel.ts]) *)

(** [Partial<Parameters>]: every property may be absent.  A property that
    is present holds a value of its type. *)
Module PartialParameters.
Record t : Type := mk {
  cropType : option string;
  ph : option R;
  ec : option R;
  airTemperature : option R;
  solutionTemperature : option R;
  lightIntensity : option R;
  co2Level : option R;
  humidity : option R;
  waterLevel : option R;
  oxygenLevel : option R
}.
End PartialParameters.

(** [{ ...a, ...b }]: the properties present in [b] replace those of [a]. *)
Definition spread (a : Parameters.t) (b : PartialParameters.t) : Parameters.t :=
  Parameters.mk
    (default (Parameters.cropType a) (PartialParameters.cropType b))
    (default (Parameters.ph a) (PartialParameters.ph b))
    (default (Parameters.ec a) (PartialParameters.ec b))
    (default (Parameters.airTemperature a) (PartialParameters.airTemperature b))
    (default (Parameters.solutionTemperature a)
       (PartialParameters.solutionTemperature b))
    (default (Parameters.lightIntensity a) (PartialParameters.lightIntensity b))
    (default (Parameters.co2Level a) (PartialParameters.co2Level b))
    (default (Parameters.humidity a) (PartialParameters.humidity b))
    (default (Parameters.waterLevel a) (PartialParameters.waterLevel b))
    (default (Parameters.oxygenLevel a) (PartialParameters.oxygenLevel b)).

Module GrowthModel.

(** The private fields [parameters] and [result]; the service is stateless. *)
Record t : Type := mk {
  parameters : Parameters.t;
  result : option SimulationResult.t
}.

(** [constructor()] *)
Definition constructor : t :=
  mk (Parameters.mk "lettuce" 6.0 1.5 20 20 12000 800 60 100 6) None.

(** [setParameters(params)] *)
Definition setParameters (m : t) (params : PartialParameters.t) : t :=
  mk (spread (parameters m) params) (result m).

(** [getParameters()] *)
Definition getParameters (m : t) : Parameters.t := parameters m.

(** [getResult()] *)
Definition getResult (m : t) : option SimulationResult.t := result m.

(** [simulate()]: the returned result and the model after the call.  When
    the service throws, the assignment to [result] is not reached. *)
Definition simulate (CROP_PARAMETERS : gmap string CropConfig.t) (m : t)
  : completion (SimulationResult.t * t) :=
  r ← simulateGrowth CROP_PARAMETERS (parameters m);
  Normal (r, mk (parameters m) (Some r)).

End GrowthModel.

(** ** The simple rule base ([generateRecommendations(params)], a module of
    its own with its own [Parameters] interface) *)

Module ExpertSystem.

Record Parameters : Type := mkParameters {
  ph : R;
  ec : R;
  airTemp : R;
  solutionTemp : R;
  light : R;
  co2 : R;
  humidity : R;
  waterLevel : R;
  oxygen : R
}.

Record Recommendation : Type := mkRecommendation {
  message : string;
  action : string
}.

Definition phRule : Recommendation :=
  mkRecommendation "pH level is out of optimal range."
                   "Adjust pH level to between 5.5 and 6.5.".
Definition ecRule : Recommendation :=
  mkRecommendation "EC level is out of optimal range."
                   "Adjust EC level to between 1.2 and 2.0.".
Definition airTempRule : Recommendation :=
  mkRecommendation "Air temperature is not optimal."
                   "Maintain air temperature between 18°C and 24°C.".
Definition solutionTempRule : Recommendation :=
  mkRecommendation "Solution temperature is not optimal."
                   "Maintain solution temperature between 18°C and 22°C.".

Definition generateRecommendations (params : Parameters)
  : list Recommendation :=
  let recommendations := [] in
  let recommendations :=
    if decide (ph params < 5.5 \/ ph params > 6.5)
    then recommendations ++ [phRule] else recommendations in
  let recommendations :=
    if decide (ec params < 1.2 \/ ec params > 2.0)
    then recommendations ++ [ecRule] else recommendations in
  let recommendations :=
    if decide (airTemp params < 18 \/ airTemp params > 24)
    then recommendations ++ [airTempRule] else recommendations in
  let recommendations :=
    if decide (solutionTemp params < 18 \/ solutionTemp params > 22)
    then recommendations ++ [solutionTempRule] else recommendations in
  recommendations.

End ExpertSystem.

(** ** The measurement store ([models/Measurement.ts], [store/actions.ts],
    [store/reducers.ts]) *)

Module Measurement.
Record t : Type := mk {
  id : string;
  timestamp : string;
  cropType : string;
  ph : R;
  ec : R;
  airTemperature : R;
  solutionTemperature : R;
  lightIntensity : R;
  co2Level : R;
  humidity : R;
  waterLevel : R;
  oxygenLevel : R;
  recommendations : list string
}.
End Measurement.

Module Store.

Definition ADD_MEASUREMENT : string := "ADD_MEASUREMENT".
Definition SET_PARAMETERS : string := "SET_PARAMETERS".

(** An action as the reducer reads it: its [type] and its [payload]. *)
Record Action : Type := mkAction {
  type : string;
  payload : Measurement.t
}.

Record State : Type := mkState {
  measurements : list Measurement.t
}.

Definition initialState : State := mkState [].

(** [addMeasurement(measurement)] *)
Definition addMeasurement (measurement : Measurement.t) : Action :=
  mkAction ADD_MEASUREMENT measurement.

(** [reducer(state = initialState, action)]: [None] is an [undefined]
    state. *)
Definition reducer (state : option State) (action : Action) : State :=
  let state := default initialState state in
  if decide (type action = "ADD_MEASUREMENT")
  then mkState (measurements state ++ [payload action])
  else state.

End Store.

(** * Properties *)

(** ** Real powers and rounding *)

Section RealFacts.

Lemma Rpower_pos (b e : R) : 0 < Rpower b e.
Proof. unfold Rpower. apply exp_pos. Qed.

Lemma Rpower_one_base (e : R) : Rpower 1 e = 1.
Proof. unfold Rpower. rewrite ln_1, Rmult_0_r. apply exp_0. Qed.

Lemma Rpower_le_one (b e : R) : 0 < b <= 1 -> 0 <= e -> Rpower b e <= 1.
Proof.
  intros Hb He. rewrite <- (Rpower_one_base e).
  apply Rle_Rpower_l; assumption.
Qed.

(** For a base in (0,1] a larger exponent gives a smaller power. *)
Lemma Rpower_antitone_exponent (b e1 e2 : R) :
  0 < b <= 1 -> e1 <= e2 -> Rpower b e2 <= Rpower b e1.
Proof.
  intros Hb He.
  replace e2 with (e1 + (e2 - e1)) by lra.
  rewrite Rpower_plus.
  pose proof (Rpower_pos b e1).
  pose proof (Rpower_le_one b (e2 - e1) Hb ltac:(lra)).
  nra.
Qed.

Lemma Rpower_centi_three_halves : Rpower 0.01 1.5 <= 0.001.
Proof.
  replace 1.5 with (1 + / 2) by lra.
  rewrite Rpower_plus, Rpower_1 by lra.
  pose proof (Rpower_pos 0.01 (/ 2)) as Hpos.
  assert (Hsq : Rpower 0.01 (/ 2) * Rpower 0.01 (/ 2) = 0.01).
  { rewrite <- Rpower_plus. replace (/ 2 + / 2) with 1 by lra.
    apply Rpower_1. lra. }
  nra.
Qed.

(** The floor of the weighting, in percent, is below one half once the
    exponent is at least 1.5. *)
Lemma floor_impact_percent_small (e : R) :
  1.5 <= e -> Rpower 0.01 e * 100 < / 2.
Proof.
  intros He.
  pose proof (Rpower_antitone_exponent 0.01 1.5 e ltac:(lra) He).
  pose proof Rpower_centi_three_halves. lra.
Qed.

Lemma round_IZR (z : Z) : Math.round (IZR z) = z.
Proof. unfold Math.round. apply Zfloor_eq. lra. Qed.

Lemma round_below_half (x : R) : 0 <= x < / 2 -> Math.round x = 0%Z.
Proof. intros Hx. unfold Math.round. apply Zfloor_eq. simpl. lra. Qed.

Lemma round_mono (x y : R) : x <= y -> (Math.round x <= Math.round y)%Z.
Proof. intros Hxy. unfold Math.round. apply Zfloor_le. lra. Qed.

Lemma round_percent_range (x : R) :
  0 <= x <= 100 -> (0 <= Math.round x <= 100)%Z.
Proof.
  intros [H0 H100]. split.
  - rewrite <- (round_IZR 0). apply round_mono. exact H0.
  - rewrite <- (round_IZR 100). apply round_mono. exact H100.
Qed.

(** [Math.max(0, Math.round(x))] and [round(max(0, x))] agree. *)
Lemma max_round_commute (x : R) :
  Z.max 0 (Math.round x) = Math.round (Math.max 0 x).
Proof.
  unfold Math.max. destruct (Rle_dec 0 x) as [Hx | Hx].
  - rewrite Rmax_right by exact Hx.
    apply Z.max_r. rewrite <- (round_IZR 0) at 1. now apply round_mono.
  - rewrite Rmax_left by lra. rewrite round_IZR.
    apply Z.max_l. rewrite <- (round_IZR 0). apply round_mono. lra.
Qed.

End RealFacts.

(** ** The yield loop against its closed form *)

Section YieldRefinement.

Variables (params : Parameters.t) (config : CropConfig.t).

Lemma clamp_unit_range (v : R) : 0 <= clamp v 0 1 <= 1.
Proof.
  unfold clamp, Math.max, Math.min. split.
  - apply Rmax_l.
  - apply Rmax_lub; [lra | apply Rmin_l].
Qed.

Lemma linearScore_range (value : R) (limits : ParameterRange.t) :
  0 <= linearScore value limits <= 1.
Proof.
  unfold linearScore.
  repeat case_decide; try apply clamp_unit_range; lra.
Qed.

(** The guards of [computeLinearNormalized] keep both divisors away from
    zero, so it always returns the score. *)
Lemma computeLinearNormalized_closed (value : R) (limits : ParameterRange.t) :
  computeLinearNormalized value (ParameterRange.min limits)
    (ParameterRange.max limits) (cminOf limits) (cmaxOf limits)
  = Normal (linearScore value limits).
Proof.
  unfold computeLinearNormalized, linearScore, Math.div.
  repeat case_decide; try reflexivity; exfalso; lra.
Qed.

Lemma floored_score_range (value : R) (limits : ParameterRange.t) :
  0.01 <= Rmax 0.01 (linearScore value limits) <= 1.
Proof.
  pose proof (linearScore_range value limits).
  split; [apply Rmax_l | apply Rmax_lub; lra].
Qed.

Lemma impactAt_closed (key : ParameterKey) (value : R)
    (limits : ParameterRange.t) :
  impactAt key value limits = Normal (impactFormula key value limits).
Proof.
  unfold impactAt. rewrite computeLinearNormalized_closed. simpl.
  unfold Math.pow, Math.max, impactFormula.
  pose proof (floored_score_range value limits).
  case_decide; [reflexivity | lra].
Qed.

Lemma weight_range (key : ParameterKey) : 0.6 <= PARAM_WEIGHTS key <= 1.5.
Proof. destruct key; simpl; lra. Qed.

Lemma impactFormula_range (key : ParameterKey) (value : R)
    (limits : ParameterRange.t) :
  Rpower 0.01 (1 + PARAM_WEIGHTS key) <= impactFormula key value limits <= 1.
Proof.
  unfold impactFormula.
  pose proof (floored_score_range value limits).
  pose proof (weight_range key).
  split.
  - apply Rle_Rpower_l; lra.
  - apply Rpower_le_one; lra.
Qed.

Lemma contribution_range (key : ParameterKey) :
  0 < contribution params config key <= 1.
Proof.
  unfold contribution. case_decide; [lra |].
  split; [apply Rpower_pos | apply impactFormula_range].
Qed.

Lemma yieldStep_closed (key : ParameterKey) (st : YieldState) :
  yieldStep params config key st
  = Normal (mkYieldState
              (yieldMultiplier st * contribution params config key)
              (<[keyString key := deviation params config key]> (deviations st))
              (yieldIssues st ++ yieldIssueOf params config key)).
Proof.
  unfold yieldStep, contribution, deviation, yieldIssueOf, inOptimal.
  case_decide.
  - rewrite Rmult_1_r, app_nil_r. reflexivity.
  - rewrite impactAt_closed. simpl. unfold Math.abs.
    case_decide; [reflexivity | now rewrite app_nil_r].
Qed.

Lemma forEach_yieldStep_closed (keys : list ParameterKey) (st : YieldState) :
  forEach keys (yieldStep params config) st
  = Normal (mkYieldState
              (fold_left Rmult (map (contribution params config) keys)
                 (yieldMultiplier st))
              (fold_left
                 (fun m key => <[keyString key := deviation params config key]> m)
                 keys (deviations st))
              (yieldIssues st ++ flat_map (yieldIssueOf params config) keys)).
Proof.
  revert st. induction keys as [| key keys IH]; intros st.
  - simpl. rewrite app_nil_r. now destruct st.
  - simpl. rewrite yieldStep_closed. simpl. rewrite IH. simpl.
    now rewrite <- app_assoc.
Qed.

Lemma fold_Rmult_scale (l : list R) (a : R) :
  fold_left Rmult l a = a * fold_left Rmult l 1.
Proof.
  revert a. induction l as [| x l IH]; intros a; simpl.
  - lra.
  - rewrite (IH (a * x)), (IH (1 * x)). lra.
Qed.

Lemma fold_Rmult_unit_range (l : list R) :
  (forall x, In x l -> 0 < x <= 1) -> 0 < fold_left Rmult l 1 <= 1.
Proof.
  induction l as [| x l IH]; intros Hl; simpl.
  - lra.
  - rewrite fold_Rmult_scale.
    pose proof (Hl x (or_introl eq_refl)).
    pose proof (IH (fun y Hy => Hl y (or_intror Hy))).
    nra.
Qed.

Lemma impactProduct_range : 0 < impactProduct params config <= 1.
Proof.
  unfold impactProduct. apply fold_Rmult_unit_range.
  intros x Hx. apply in_map_iff in Hx as (key & <- & _).
  apply contribution_range.
Qed.

(** After the loop, [deviations] holds the deviation of every key. *)
Lemma deviations_after_loop (key : ParameterKey) :
  fold_left (fun m key => <[keyString key := deviation params config key]> m)
    parameterKeys (∅ : gmap string R) !! keyString key
  = Some (deviation params config key).
Proof.
  unfold parameterKeys. cbn [fold_left keyString].
  destruct key; cbn [keyString];
    rewrite ?lookup_insert_ne by done; apply lookup_insert_eq.
Qed.

Lemma finalYieldMultiplier_closed (issues : list message) :
  finalYieldMultiplier params config issues
  = Normal (impactProduct params config * interactionFactor params config,
            issues ++ flat_map (yieldIssueOf params config) parameterKeys).
Proof.
  unfold finalYieldMultiplier. rewrite forEach_yieldStep_closed.
  unfold interactionFactor.
  cbn [mbind completion_bind yieldMultiplier deviations yieldIssues].
  change "ec"%string with (keyString ec).
  change "ph"%string with (keyString ph).
  rewrite !deviations_after_loop. cbn [default from_option]. unfold Datatypes.id.
  replace (fold_left Rmult (map (contribution params config) parameterKeys) 1.0)
    with (impactProduct params config) by (unfold impactProduct; f_equal; lra).
  case_decide; f_equal; f_equal; lra.
Qed.

End YieldRefinement.

(** ** The yield evaluator *)

(** C1.  For every input and every profile (the profile invariants are not
    even needed), [calculateYield] returns an integer percentage in
    [[0, 100]].  It is [round(max(0, yieldMultiplier * 100))], where the final
    [yieldMultiplier] is the product of the nine per-parameter contributions
    and the interaction factor; each of these factors is at most 1, so the
    percentage cannot exceed 100. *)
Theorem calculateYield_percentage_range
    (params : Parameters.t) (config : CropConfig.t) (issues : list message) :
  exists (ym : R) (pct : Z) (issues' : list message),
    finalYieldMultiplier params config issues = Normal (ym, issues')
    /\ calculateYield params config issues = Normal (pct, issues')
    /\ pct = Math.round (Math.max 0 (ym * 100))
    /\ (0 <= pct <= 100)%Z
    /\ ym = impactProduct params config * interactionFactor params config
    /\ (forall key, contribution params config key <= 1)
    /\ interactionFactor params config <= 1.
Proof.
  pose proof (impactProduct_range params config) as Hprod.
  assert (Hfac : 0 < interactionFactor params config <= 1)
    by (unfold interactionFactor; case_decide; lra).
  exists (impactProduct params config * interactionFactor params config).
  eexists. eexists.
  split; [apply finalYieldMultiplier_closed |].
  split.
  { unfold calculateYield. rewrite finalYieldMultiplier_closed. reflexivity. }
  cbn [fst snd].
  split; [apply max_round_commute |].
  split.
  { rewrite max_round_commute. apply round_percent_range.
    unfold Math.max. split; [apply Rmax_l | apply Rmax_lub; nra]. }
  split; [reflexivity |].
  split; [intros key; apply contribution_range | apply Hfac].
Qed.


(** ** The per-parameter impact *)

Lemma clamp_monotone (x y : R) : x <= y -> clamp x 0 1 <= clamp y 0 1.
Proof.
  intros Hxy. unfold clamp, Math.max, Math.min, Rmax, Rmin.
  repeat destruct (Rle_dec _ _); lra.
Qed.

Lemma linearScore_monotone_below (limits : ParameterRange.t) (v1 v2 : R) :
  v2 <= v1 -> v1 < ParameterRange.min limits ->
  linearScore v2 limits <= linearScore v1 limits.
Proof.
  intros H21 H1. unfold linearScore.
  repeat case_decide; try lra.
  apply clamp_monotone. apply Rmult_le_compat_r; [| lra].
  apply Rlt_le, Rinv_0_lt_compat. lra.
Qed.

Lemma linearScore_monotone_above (limits : ParameterRange.t) (v1 v2 : R) :
  ParameterRange.min limits <= ParameterRange.max limits ->
  ParameterRange.max limits < v1 -> v1 <= v2 ->
  linearScore v2 limits <= linearScore v1 limits.
Proof.
  intros Hmm H1 H12. unfold linearScore.
  repeat case_decide; try lra.
  apply clamp_monotone. apply Rmult_le_compat_r; [| lra].
  apply Rlt_le, Rinv_0_lt_compat. lra.
Qed.

(** C7.  Within one side of the optimal range, a value farther from the
    range never has a larger impact. *)
Theorem impact_monotone
    (key : ParameterKey) (limits : ParameterRange.t) (v1 v2 : R) :
  ParameterRange.min limits <= ParameterRange.max limits ->
  (v2 <= v1 /\ v1 < ParameterRange.min limits)
  \/ (ParameterRange.max limits < v1 /\ v1 <= v2) ->
  exists i1 i2 : R,
    impactAt key v1 limits = Normal i1
    /\ impactAt key v2 limits = Normal i2
    /\ i2 <= i1.
Proof.
  intros Hmm Hside.
  exists (impactFormula key v1 limits), (impactFormula key v2 limits).
  split; [apply impactAt_closed |].
  split; [apply impactAt_closed |].
  assert (HL : linearScore v2 limits <= linearScore v1 limits).
  { destruct Hside as [[H21 H1] | [H1 H12]].
    - now apply linearScore_monotone_below.
    - now apply linearScore_monotone_above. }
  unfold impactFormula.
  pose proof (weight_range key).
  pose proof (floored_score_range v2 limits).
  apply Rle_Rpower_l; [lra |].
  split; [lra |].
  apply Rmax_lub; [apply Rmax_l |].
  etransitivity; [exact HL | apply Rmax_r].
Qed.

Lemma impact_monotone_witness :
  exists i1 i2 : R,
    impactAt ph 5 (CropOptimalParameters.ph sampleOptimal) = Normal i1
    /\ impactAt ph 4.5 (CropOptimalParameters.ph sampleOptimal) = Normal i2
    /\ i2 <= i1.
Proof.
  apply (impact_monotone ph (CropOptimalParameters.ph sampleOptimal) 5 4.5).
  - simpl. lra.
  - left. simpl. lra.
Defined.

(** ** Totality of the normalization *)

(** C8.  [computeLinearNormalized] returns a score for every real input and
    every range.  When there is no slack below ([cmin >= min]) the
    below-optimum branch returns 0, and when there is no slack above
    ([cmax <= max]) the above-optimum branch returns 0, in both cases before
    the division, whose divisor may be zero there (it is when the critical
    bound equals the optimal one).  On every other path the divisor is
    non-zero.  The whole yield computation returns a percentage for every
    real-valued input and every profile. *)
Theorem normalization_total :
  (forall value min max cmin cmax : R,
      value < min -> cmin >= min ->
      computeLinearNormalized value min max cmin cmax = Normal 0)
  /\ (forall value min max cmin cmax : R,
         ~ value < min -> value > max -> cmax <= max ->
         computeLinearNormalized value min max cmin cmax = Normal 0)
  /\ (forall value min max cmax : R,
         value < min ->
         Math.div (value - min) (min - min) = NotReal
         /\ computeLinearNormalized value min max min cmax = Normal 0)
  /\ (forall value min max cmin cmax : R,
         exists L : R,
           computeLinearNormalized value min max cmin cmax = Normal L
           /\ 0 <= L <= 1)
  /\ (forall (params : Parameters.t) (config : CropConfig.t)
             (issues : list message),
         exists (pct : Z) (issues' : list message),
           calculateYield params config issues = Normal (pct, issues')).
Proof.
  split; [| split; [| split; [| split]]].
  - intros value min max cmin cmax Hlow Hslack.
    unfold computeLinearNormalized. repeat case_decide; try lra. reflexivity.
  - intros value min max cmin cmax Hnlow Hhigh Hslack.
    unfold computeLinearNormalized. repeat case_decide; try lra. reflexivity.
  - intros value min max cmax Hlow. split.
    + unfold Math.div. case_decide; [reflexivity | lra].
    + unfold computeLinearNormalized. repeat case_decide; try lra. reflexivity.
  - intros value min max cmin cmax.
    unfold computeLinearNormalized, Math.div.
    repeat case_decide; try lra; simpl; eexists; (split; [reflexivity |]);
      try apply clamp_unit_range; lra.
  - intros params config issues. unfold calculateYield.
    rewrite finalYieldMultiplier_closed. simpl. eauto.
Qed.

Lemma normalization_total_witness :
  computeLinearNormalized 3 5 6 5 8 = Normal 0
  /\ computeLinearNormalized 9 5 6 4 6 = Normal 0.
Proof.
  destruct normalization_total as (Hbelow & Habove & _).
  split.
  - apply (Hbelow 3 5 6 5 8); lra.
  - apply (Habove 9 5 6 4 6); lra.
Defined.

(** ** The viability checker *)

Section Viability.

Variables (params : Parameters.t) (config : CropConfig.t).

Local Abbreviation beyond key :=
  (beyondCritical (valueOf params key)
     (rangeOf (CropConfig.optimal config) key)).

Lemma viabilityStep_closed (st : bool * list message) (key : ParameterKey) :
  viabilityStep params config st key
  = (st.1 && negb (bool_decide (beyond key)),
     st.2 ++ criticalIssueOf params config key).
Proof.
  unfold viabilityStep, criticalIssueOf, beyondCritical.
  destruct st as [b issues]. cbn [fst snd].
  case_bool_decide as Hdec; case_decide; try tauto.
  - now rewrite andb_false_r.
  - now rewrite andb_true_r, app_nil_r.
Qed.

Lemma checkViability_fold (keys : list ParameterKey) (st : bool * list message) :
  fold_left (viabilityStep params config) keys st
  = (st.1 && forallb (fun key => negb (bool_decide (beyond key))) keys,
     st.2 ++ flat_map (criticalIssueOf params config) keys).
Proof.
  revert st. induction keys as [| key keys IH]; intros st.
  - simpl. rewrite andb_true_r, app_nil_r. now destruct st.
  - simpl. rewrite IH, viabilityStep_closed. cbn [fst snd].
    now rewrite andb_assoc, app_assoc.
Qed.

Lemma every_key_listed (key : ParameterKey) : In key parameterKeys.
Proof. destruct key; simpl; tauto. Qed.

Lemma forallb_false_witness {A : Type} (f : A -> bool) (l : list A) :
  forallb f l = false -> exists x, In x l /\ f x = false.
Proof.
  induction l as [| a l IH]; simpl; [discriminate |].
  destruct (f a) eqn:Hfa; simpl.
  - intros Hl. destruct (IH Hl) as (x & Hx & Hfx). exists x. tauto.
  - intros _. exists a. tauto.
Qed.

Lemma checkViability_false_iff (issues : list message) :
  (checkViability params config issues).1 = false
  <-> exists key, beyond key.
Proof.
  unfold checkViability. rewrite checkViability_fold. cbn [fst andb]. split.
  - intros Hf. apply forallb_false_witness in Hf as (key & _ & Hkey).
    exists key. apply negb_false_iff, bool_decide_eq_true in Hkey. exact Hkey.
  - intros [key Hkey]. apply not_true_iff_false. intros Hall.
    rewrite forallb_forall in Hall.
    specialize (Hall key (every_key_listed key)).
    apply negb_true_iff, bool_decide_eq_false in Hall. contradiction.
Qed.

End Viability.

(** C4.  [checkViability] returns [false] exactly when the value of some
    parameter is strictly below its effective critical minimum or strictly
    above its effective critical maximum, the effective bound being the
    declared [criticalMin] (resp. [criticalMax]) and, where none is declared,
    the optimal [min] (resp. [max]).  It appends one issue for each such
    parameter, in key order, all nine keys being visited; values on an
    effective bound do not count, so a reading with every value within the
    closed effective interval is viable. *)
Theorem checkViability_exact
    (params : Parameters.t) (config : CropConfig.t) (issues : list message) :
  ((checkViability params config issues).1 = false
   <-> exists key,
         valueOf params key
         < match ParameterRange.criticalMin
                   (rangeOf (CropConfig.optimal config) key) with
           | Some c => c
           | None => ParameterRange.min (rangeOf (CropConfig.optimal config) key)
           end
         \/ valueOf params key
            > match ParameterRange.criticalMax
                      (rangeOf (CropConfig.optimal config) key) with
              | Some c => c
              | None =>
                  ParameterRange.max (rangeOf (CropConfig.optimal config) key)
              end)
  /\ (checkViability params config issues).2
     = issues ++
       flat_map
         (fun key =>
            let value := valueOf params key in
            let limits := rangeOf (CropConfig.optimal config) key in
            let lower := match ParameterRange.criticalMin limits with
                         | Some c => c
                         | None => ParameterRange.min limits
                         end in
            let upper := match ParameterRange.criticalMax limits with
                         | Some c => c
                         | None => ParameterRange.max limits
                         end in
            if decide (value < lower \/ value > upper)
            then [CriticalIssue (getParameterName key) value lower upper]
            else [])
         [ph; ec; airTemperature; solutionTemperature; lightIntensity;
          co2Level; humidity; waterLevel; oxygenLevel]
  /\ ((forall key,
         match ParameterRange.criticalMin
                 (rangeOf (CropConfig.optimal config) key) with
         | Some c => c
         | None => ParameterRange.min (rangeOf (CropConfig.optimal config) key)
         end
         <= valueOf params key
         /\ valueOf params key
            <= match ParameterRange.criticalMax
                       (rangeOf (CropConfig.optimal config) key) with
               | Some c => c
               | None =>
                   ParameterRange.max (rangeOf (CropConfig.optimal config) key)
               end) ->
      (checkViability params config issues).1 = true).
Proof.
  pose proof (checkViability_false_iff params config issues) as Hiff.
  unfold beyondCritical in Hiff.
  assert (Hfirst :
            (checkViability params config issues).1 = false
            <-> exists key,
                  valueOf params key
                  < match ParameterRange.criticalMin
                            (rangeOf (CropConfig.optimal config) key) with
                    | Some c => c
                    | None =>
                        ParameterRange.min
                          (rangeOf (CropConfig.optimal config) key)
                    end
                  \/ valueOf params key
                     > match ParameterRange.criticalMax
                               (rangeOf (CropConfig.optimal config) key) with
                       | Some c => c
                       | None =>
                           ParameterRange.max
                             (rangeOf (CropConfig.optimal config) key)
                       end)
    by exact Hiff.
  split; [exact Hfirst |]. split.
  - unfold checkViability. rewrite checkViability_fold. reflexivity.
  - intros Hin. apply not_false_iff_true. intros Hfalse.
    apply Hfirst in Hfalse as [key Hkey].
    specialize (Hin key). lra.
Qed.

(** At the sample profile: humidity on its declared critical minimum 40 or
    on its declared critical maximum 90 (outside the optimal range
    [[50, 70]]) is viable; a water level of 101, above the optimal maximum
    100 with no critical maximum declared, is not. *)
Lemma checkViability_exact_witness :
  (checkViability boundaryParams sampleConfig []).1 = true
  /\ (checkViability upperBoundaryParams sampleConfig []).1 = true
  /\ (checkViability overfilledParams sampleConfig []).1 = false.
Proof.
  split; [| split].
  - apply (checkViability_exact boundaryParams sampleConfig []).
    intros key. destruct key; simpl; lra.
  - apply (checkViability_exact upperBoundaryParams sampleConfig []).
    intros key. destruct key; simpl; lra.
  - apply (checkViability_exact overfilledParams sampleConfig []).
    exists waterLevel. right. simpl. lra.
Defined.

(** ** The growth-time estimator *)

Lemma calculateGrowthTime_closed
    (params : Parameters.t) (config : CropConfig.t) :
  calculateGrowthTime params config
  = Rmin (IZR (Math.round (GrowthTime.optimal (CropConfig.growthTime config)
                           * growthMultiplier params config)))
         (GrowthTime.max (CropConfig.growthTime config)).
Proof.
  unfold calculateGrowthTime, growthMultiplier, Math.min.
  repeat case_decide; do 3 f_equal; lra.
Qed.

Lemma growthMultiplier_ge_one (params : Parameters.t) (config : CropConfig.t) :
  1 <= growthMultiplier params config.
Proof. unfold growthMultiplier. repeat case_decide; lra. Qed.

(** C6, as the code has it.  With [1 <= growthTime.optimal <= growthTime.max]
    the estimate lies in [[1, max]] and is an integer whenever
    [growthTime.max] is one (at the cap the result is [growthTime.max]
    itself).  For a whole number of optimal days it is
    [min(round(optimal * m), max)], [m] being the product of 1.5, 1.3 and 1.2
    for air temperature, light intensity and CO2 level strictly below their
    optimal minimum, and of nothing else.  (For a fractional optimal time
    the source rounds the product of the factors before it rounds the days;
    the formula is not claimed there.) *)
Theorem calculateGrowthTime_bounds
    (params : Parameters.t) (config : CropConfig.t) :
  1 <= GrowthTime.optimal (CropConfig.growthTime config) ->
  GrowthTime.optimal (CropConfig.growthTime config)
    <= GrowthTime.max (CropConfig.growthTime config) ->
  1 <= calculateGrowthTime params config
    <= GrowthTime.max (CropConfig.growthTime config)
  /\ ((exists n : Z, GrowthTime.max (CropConfig.growthTime config) = IZR n) ->
      exists n : Z, calculateGrowthTime params config = IZR n)
  /\ ((exists n : Z, GrowthTime.optimal (CropConfig.growthTime config) = IZR n) ->
      calculateGrowthTime params config
      = Rmin (IZR (Math.round
                     (GrowthTime.optimal (CropConfig.growthTime config)
                      * ((if decide
                               (Parameters.airTemperature params
                                < ParameterRange.min
                                    (CropOptimalParameters.airTemperature
                                       (CropConfig.optimal config)))
                          then 1.5 else 1)
                         * (if decide
                                 (Parameters.lightIntensity params
                                  < ParameterRange.min
                                      (CropOptimalParameters.lightIntensity
                                         (CropConfig.optimal config)))
                            then 1.3 else 1)
                         * (if decide
                                 (Parameters.co2Level params
                                  < ParameterRange.min
                                      (CropOptimalParameters.co2Level
                                         (CropConfig.optimal config)))
                            then 1.2 else 1)))))
             (GrowthTime.max (CropConfig.growthTime config))).
Proof.
  intros Hopt Hmax.
  rewrite calculateGrowthTime_closed.
  pose proof (growthMultiplier_ge_one params config) as Hm.
  split; [split | split].
  - apply Rmin_glb; [| lra].
    apply IZR_le. rewrite <- (round_IZR 1). apply round_mono. nra.
  - apply Rmin_r.
  - intros [n Hn].
    unfold Rmin. destruct (Rle_dec _ _).
    + eexists. reflexivity.
    + exists n. exact Hn.
  - intros _. reflexivity.
Qed.

(** At the sample profile (30 optimal days, at most 45) with a cold air
    temperature: 30 * 1.5 = 45 days. *)
Lemma calculateGrowthTime_bounds_witness :
  1 <= calculateGrowthTime coldParams sampleConfig <= 45
  /\ (exists n : Z, calculateGrowthTime coldParams sampleConfig = IZR n)
  /\ calculateGrowthTime coldParams sampleConfig = 45.
Proof.
  destruct (calculateGrowthTime_bounds coldParams sampleConfig
              ltac:(simpl; lra) ltac:(simpl; lra))
    as (Hrange & Hint & Hformula).
  split; [exact Hrange |].
  split; [apply Hint; exists 45%Z; reflexivity |].
  rewrite Hformula by (exists 30%Z; reflexivity).
  clear Hrange Hint Hformula.
  cbn [sampleConfig coldParams sampleOptimal CropConfig.optimal
       CropConfig.growthTime GrowthTime.optimal GrowthTime.max
       Parameters.airTemperature Parameters.lightIntensity
       Parameters.co2Level CropOptimalParameters.airTemperature
       CropOptimalParameters.lightIntensity CropOptimalParameters.co2Level
       ParameterRange.min].
  repeat case_decide; try lra.
  replace (30 * (1.5 * 1 * 1)) with (IZR 45) by lra.
  rewrite round_IZR. apply Rmin_left. lra.
Defined.

(** C6 as stated fails: with a fractional maximum the cap is returned as it
    is, and it is not an integer. *)
Lemma calculateGrowthTime_fractional :
  1 <= GrowthTime.optimal (CropConfig.growthTime halfDayConfig)
    <= GrowthTime.max (CropConfig.growthTime halfDayConfig)
  /\ calculateGrowthTime coldParams halfDayConfig = 40.5
  /\ ~ (exists n : Z, calculateGrowthTime coldParams halfDayConfig = IZR n).
Proof.
  assert (Hval : calculateGrowthTime coldParams halfDayConfig = 40.5).
  { rewrite calculateGrowthTime_closed. unfold growthMultiplier.
    cbn [halfDayConfig coldParams sampleOptimal CropConfig.optimal
         CropConfig.growthTime GrowthTime.optimal GrowthTime.max
         Parameters.airTemperature Parameters.lightIntensity
         Parameters.co2Level CropOptimalParameters.airTemperature
         CropOptimalParameters.lightIntensity CropOptimalParameters.co2Level
         ParameterRange.min].
    repeat case_decide; try lra.
    replace (30 * (1.5 * 1 * 1)) with (IZR 45) by lra.
    rewrite round_IZR. apply Rmin_right. lra. }
  split; [simpl; lra |]. split; [exact Hval |].
  rewrite Hval. intros [n Hn].
  assert (H1 : IZR 40 < IZR n) by lra.
  assert (H2 : IZR n < IZR 41) by lra.
  apply lt_IZR in H1, H2. lia.
Qed.

(** ** The orchestrator *)

Section Orchestrator.

Variables (registry : gmap string CropConfig.t) (params : Parameters.t)
  (config : CropConfig.t).
Hypothesis Hlookup : registry !! Parameters.cropType params = Some config.

(** For a crop the registry has, [simulateGrowth] returns a result, whose
    fields are those computed by the four components. *)
Lemma simulateGrowth_closed :
  exists r : SimulationResult.t,
    simulateGrowth registry params = Normal r
    /\ SimulationResult.isViable r = (checkViability params config []).1
    /\ SimulationResult.yieldPercentage r = yieldPercentageOf params config
    /\ SimulationResult.expectedGrams r
       = Math.round ((if decide (CropConfig.maxYield config = 0)
                      then 0 else CropConfig.maxYield config)
                     * (IZR (yieldPercentageOf params config) / 100))
    /\ SimulationResult.yieldPerSquareMeter r
       = IZR (Math.round (IZR (SimulationResult.expectedGrams r) / 1000 * 100))
         / 100
    /\ SimulationResult.growthTime r = calculateGrowthTime params config
    /\ SimulationResult.issues r
       = flat_map (criticalIssueOf params config) parameterKeys
         ++ flat_map (yieldIssueOf params config) parameterKeys
    /\ SimulationResult.recommendations r
       = generateRecommendations params config [].
Proof.
  unfold simulateGrowth. rewrite Hlookup.
  unfold calculateYield. rewrite finalYieldMultiplier_closed.
  cbn [mbind completion_bind fst snd].
  eexists. split; [reflexivity |].
  cbn [SimulationResult.isViable SimulationResult.yieldPercentage
       SimulationResult.expectedGrams SimulationResult.yieldPerSquareMeter
       SimulationResult.growthTime SimulationResult.issues
       SimulationResult.recommendations].
  repeat (split; [reflexivity |]). split; [| reflexivity].
  unfold checkViability. rewrite checkViability_fold. reflexivity.
Qed.

End Orchestrator.

(** C9, as the code has it.  For a crop identifier that is not a key of the
    registry the entry point returns no result: the undefined profile is
    dereferenced in the viability check and a [TypeError] is thrown. *)
Theorem simulateGrowth_unknown_crop
    (registry : gmap string CropConfig.t) (params : Parameters.t) :
  registry !! Parameters.cropType params = None ->
  exists e : JsError,
    simulateGrowth registry params = Throw e
    /\ errorName e = "TypeError".
Proof.
  intros Hnone. unfold simulateGrowth. rewrite Hnone.
  eexists. split; reflexivity.
Qed.

Lemma simulateGrowth_unknown_crop_witness :
  exists e : JsError,
    simulateGrowth sampleRegistry arugulaParams = Throw e
    /\ errorName e = "TypeError".
Proof.
  apply (simulateGrowth_unknown_crop sampleRegistry arugulaParams).
  apply lookup_singleton_ne. discriminate.
Defined.

(** C9 as stated fails: the error thrown for an unknown crop is not an
    [UnknownCropError]. *)
Lemma simulateGrowth_no_UnknownCropError :
  sampleRegistry !! Parameters.cropType arugulaParams = None
  /\ ~ (exists e : JsError,
          simulateGrowth sampleRegistry arugulaParams = Throw e
          /\ errorName e = "UnknownCropError").
Proof.
  assert (Hnone : sampleRegistry !! Parameters.cropType arugulaParams = None)
    by (apply lookup_singleton_ne; discriminate).
  split; [exact Hnone |].
  intros (e & He & Hname).
  unfold simulateGrowth in He. rewrite Hnone in He.
  injection He as <-. discriminate Hname.
Qed.

(** ** Beyond a critical bound *)

Lemma effective_critical_bounds (limits : ParameterRange.t) :
  validRange limits ->
  cminOf limits <= ParameterRange.min limits
  /\ ParameterRange.max limits <= cmaxOf limits.
Proof.
  intros (_ & Hcmin & Hcmax). unfold cminOf, cmaxOf.
  destruct (ParameterRange.criticalMin limits) as [c |];
    destruct (ParameterRange.criticalMax limits) as [d |]; simpl;
    try specialize (Hcmin c eq_refl); try specialize (Hcmax d eq_refl); lra.
Qed.

Lemma clamp_nonpositive (x : R) : x <= 0 -> clamp x 0 1 = 0.
Proof.
  intros Hx. unfold clamp, Math.max, Math.min, Rmax, Rmin.
  repeat destruct (Rle_dec _ _); lra.
Qed.

Lemma beyondCritical_score_zero (value : R) (limits : ParameterRange.t) :
  validRange limits -> beyondCritical value limits ->
  ~ inOptimal value limits /\ linearScore value limits = 0.
Proof.
  intros Hvalid Hbeyond.
  destruct (effective_critical_bounds limits Hvalid) as [Hlo Hhi].
  destruct Hvalid as (Hmm & _). unfold beyondCritical in Hbeyond.
  split; [unfold inOptimal; lra |].
  unfold linearScore. repeat case_decide; try lra.
  - apply clamp_nonpositive.
    assert (0 < / (ParameterRange.min limits - cminOf limits))
      by (apply Rinv_0_lt_compat; lra).
    unfold Rdiv. nra.
  - apply clamp_nonpositive.
    assert (0 < / (cmaxOf limits - ParameterRange.max limits))
      by (apply Rinv_0_lt_compat; lra).
    unfold Rdiv. nra.
Qed.

Lemma fold_Rmult_le_member (l : list R) (y : R) :
  (forall x, In x l -> 0 < x <= 1) -> In y l -> fold_left Rmult l 1 <= y.
Proof.
  induction l as [| x l IH]; intros Hl Hy; [contradiction |].
  simpl. rewrite fold_Rmult_scale.
  pose proof (Hl x (or_introl eq_refl)).
  pose proof (fold_Rmult_unit_range l (fun z Hz => Hl z (or_intror Hz))).
  destruct Hy as [<- | Hy].
  - nra.
  - specialize (IH (fun z Hz => Hl z (or_intror Hz)) Hy). nra.
Qed.

Lemma impactProduct_le_contribution
    (params : Parameters.t) (config : CropConfig.t) (key : ParameterKey) :
  impactProduct params config <= contribution params config key.
Proof.
  unfold impactProduct. apply fold_Rmult_le_member.
  - intros x Hx. apply in_map_iff in Hx as (k & <- & _).
    apply contribution_range.
  - apply in_map, every_key_listed.
Qed.

(** A value at zero score leaves less than half a percent. *)
Lemma zero_score_percentage
    (params : Parameters.t) (config : CropConfig.t) (key : ParameterKey) :
  ~ inOptimal (valueOf params key) (rangeOf (CropConfig.optimal config) key) ->
  linearScore (valueOf params key) (rangeOf (CropConfig.optimal config) key) = 0 ->
  yieldPercentageOf params config = 0%Z.
Proof.
  intros Hout Hzero.
  pose proof (impactProduct_range params config) as Hprod.
  pose proof (impactProduct_le_contribution params config key) as Hle.
  assert (Hc : contribution params config key * 100 < / 2).
  { unfold contribution. case_decide; [contradiction |].
    unfold impactFormula. rewrite Hzero, Rmax_left by lra.
    apply floor_impact_percent_small.
    pose proof (weight_range key). lra. }
  assert (Hfac : 0 < interactionFactor params config <= 1)
    by (unfold interactionFactor; case_decide; lra).
  unfold yieldPercentageOf. rewrite round_below_half; [reflexivity |].
  split; nra.
Qed.

(** C10.  For a profile satisfying the invariants, a non-viable result has a
    yield percentage of 0, hence 0 expected grams and 0 kg per square
    metre. *)
Theorem nonviable_zero_yield
    (registry : gmap string CropConfig.t) (params : Parameters.t)
    (config : CropConfig.t) :
  registry !! Parameters.cropType params = Some config ->
  validProfile config ->
  exists r : SimulationResult.t,
    simulateGrowth registry params = Normal r
    /\ (SimulationResult.isViable r = false ->
        SimulationResult.yieldPercentage r = 0%Z
        /\ SimulationResult.expectedGrams r = 0%Z
        /\ SimulationResult.yieldPerSquareMeter r = 0).
Proof.
  intros Hlookup (Hranges & _).
  destruct (simulateGrowth_closed registry params config Hlookup)
    as (r & Hr & Hv & Hpct & Hgrams & Harea & _).
  exists r. split; [exact Hr |]. intros Hdead.
  rewrite Hv in Hdead.
  apply checkViability_false_iff in Hdead as [key Hkey].
  destruct (beyondCritical_score_zero _ _ (Hranges key) Hkey) as [Hout Hzero].
  pose proof (zero_score_percentage params config key Hout Hzero) as Hpct0.
  assert (Hg : SimulationResult.expectedGrams r = 0%Z).
  { rewrite Hgrams, Hpct0.
    transitivity (Math.round (IZR 0)); [f_equal; lra | apply round_IZR]. }
  split; [congruence |]. split; [exact Hg |].
  rewrite Harea, Hg.
  replace (0 / 1000 * 100) with (IZR 0) by lra.
  rewrite round_IZR. lra.
Qed.

Lemma sampleConfig_valid : validProfile sampleConfig.
Proof.
  split; [| simpl; lra].
  intros key. unfold validRange.
  destruct key; simpl; (split; [lra |]);
    split; intros c Hc; try discriminate Hc; injection Hc as <-; lra.
Qed.

Lemma nonviable_zero_yield_witness :
  exists r : SimulationResult.t,
    simulateGrowth sampleRegistry acidParams = Normal r
    /\ SimulationResult.isViable r = false
    /\ SimulationResult.yieldPercentage r = 0%Z
    /\ SimulationResult.expectedGrams r = 0%Z
    /\ SimulationResult.yieldPerSquareMeter r = 0.
Proof.
  assert (Hlookup :
            sampleRegistry !! Parameters.cropType acidParams = Some sampleConfig)
    by apply lookup_singleton_eq.
  destruct (nonviable_zero_yield sampleRegistry acidParams sampleConfig
              Hlookup sampleConfig_valid) as (r & Hr & Hzero).
  destruct (simulateGrowth_closed sampleRegistry acidParams sampleConfig Hlookup)
    as (r' & Hr' & Hv & _).
  assert (r' = r) as -> by congruence.
  assert (Hdead : SimulationResult.isViable r = false).
  { rewrite Hv. apply checkViability_false_iff. exists ph.
    left. unfold cminOf. simpl. lra. }
  exists r. split; [exact Hr |]. split; [exact Hdead |]. exact (Hzero Hdead).
Defined.

(** ** The floor of the weighting *)

(** The impact of a value outside the optimal range lies between
    [0.01 ^ (1 + weight)] and 1 and is never zero. *)
Lemma impactAt_bounds (key : ParameterKey) (value : R)
    (limits : ParameterRange.t) :
  exists i : R,
    impactAt key value limits = Normal i
    /\ Rpower 0.01 (1 + PARAM_WEIGHTS key) <= i <= 1
    /\ i <> 0.
Proof.
  exists (impactFormula key value limits).
  split; [apply impactAt_closed |].
  split; [apply impactFormula_range |].
  pose proof (Rpower_pos (Rmax 0.01 (linearScore value limits))
                (1 + PARAM_WEIGHTS key)).
  unfold impactFormula. lra.
Qed.

(** C3 at a failing input.  Humidity sits exactly on its critical minimum
    (the plant is still viable) and the other eight readings are inside
    their optimal ranges.  The impact of humidity is not zero, yet the yield
    percentage returned is 0: the floor of 0.01 does not survive the
    rounding to a whole percent. *)
Theorem floor_rounds_to_zero :
  (checkViability boundaryParams sampleConfig []).1 = true
  /\ (forall key, key <> humidity ->
        inOptimal (valueOf boundaryParams key)
          (rangeOf (CropConfig.optimal sampleConfig) key))
  /\ (exists i : R,
        impactAt humidity (valueOf boundaryParams humidity)
          (rangeOf (CropConfig.optimal sampleConfig) humidity) = Normal i
        /\ i <> 0)
  /\ (exists issues : list message,
        calculateYield boundaryParams sampleConfig [] = Normal (0%Z, issues)).
Proof.
  split; [| split; [| split]].
  - apply not_false_iff_true. intros Hdead.
    apply checkViability_false_iff in Hdead as [key Hkey].
    unfold beyondCritical, cminOf, cmaxOf in Hkey.
    destruct key; simpl in Hkey; lra.
  - intros key Hkey. unfold inOptimal.
    destruct key; try contradiction; simpl; lra.
  - destruct (impactAt_bounds humidity (valueOf boundaryParams humidity)
                (rangeOf (CropConfig.optimal sampleConfig) humidity))
      as (i & Hi & _ & Hnz).
    exists i. split; assumption.
  - unfold calculateYield. rewrite finalYieldMultiplier_closed.
    cbn [mbind completion_bind fst snd]. eexists. do 2 f_equal.
    apply (zero_score_percentage boundaryParams sampleConfig humidity).
    + unfold inOptimal. simpl. lra.
    + unfold linearScore, cminOf, cmaxOf. simpl.
      repeat case_decide; try lra.
      apply clamp_nonpositive. lra.
Qed.

(** ** Every reading inside its optimal range *)

Section AllOptimal.

Variables (params : Parameters.t) (config : CropConfig.t).
Hypothesis Hvalid : validProfile config.
Hypothesis Hopt : forall key,
  inOptimal (valueOf params key) (rangeOf (CropConfig.optimal config) key).

Lemma flat_map_all_nil {A B : Type} (f : A -> list B) (l : list A) :
  (forall x, f x = []) -> flat_map f l = [].
Proof.
  intros Hf. induction l as [| x l IH]; simpl; [reflexivity |].
  now rewrite Hf, IH.
Qed.

Lemma optimal_is_viable : (checkViability params config []).1 = true.
Proof.
  apply not_false_iff_true. intros Hdead.
  apply checkViability_false_iff in Hdead as [key Hkey].
  destruct Hvalid as (Hranges & _).
  destruct (effective_critical_bounds _ (Hranges key)).
  specialize (Hopt key). unfold inOptimal in Hopt.
  unfold beyondCritical in Hkey. lra.
Qed.

Lemma optimal_no_critical_issue (key : ParameterKey) :
  criticalIssueOf params config key = [].
Proof.
  unfold criticalIssueOf. case_decide as Hkey; [| reflexivity].
  destruct Hvalid as (Hranges & _).
  destruct (effective_critical_bounds _ (Hranges key)).
  specialize (Hopt key). unfold inOptimal in Hopt.
  unfold beyondCritical in Hkey. lra.
Qed.

Lemma optimal_no_yield_issue (key : ParameterKey) :
  yieldIssueOf params config key = [].
Proof.
  unfold yieldIssueOf. case_decide as Hkey; [reflexivity |].
  now specialize (Hopt key).
Qed.

Lemma optimal_contribution (key : ParameterKey) :
  contribution params config key = 1.
Proof.
  unfold contribution. case_decide as Hkey; [reflexivity |].
  now specialize (Hopt key).
Qed.

Lemma optimal_percentage : yieldPercentageOf params config = 100%Z.
Proof.
  unfold yieldPercentageOf.
  assert (Hprod : impactProduct params config = 1).
  { unfold impactProduct, parameterKeys. cbn [map fold_left].
    rewrite !optimal_contribution. lra. }
  assert (Hfac : interactionFactor params config = 1).
  { unfold interactionFactor, deviation.
    repeat case_decide; try reflexivity; try lra.
    all: exfalso; match goal with H : ~ inOptimal _ _ |- _ => apply H end;
      apply Hopt. }
  rewrite Hprod, Hfac.
  replace (1 * 1 * 100) with (IZR 100) by lra.
  now rewrite round_IZR.
Qed.

Lemma optimal_no_step (recs : list message) (key : ParameterKey) :
  recommendationStep params config recs key = recs.
Proof.
  unfold recommendationStep.
  specialize (Hopt key). unfold inOptimal in Hopt.
  repeat case_decide; try reflexivity; lra.
Qed.

Lemma optimal_recommendations :
  generateRecommendations params config []
  = if decide (Rabs (Parameters.ec params
                     - (ParameterRange.min
                          (CropOptimalParameters.ec (CropConfig.optimal config))
                        + ParameterRange.max
                            (CropOptimalParameters.ec (CropConfig.optimal config)))
                       / 2) > 0.8
               /\ Rabs (Parameters.ph params
                        - (ParameterRange.min
                             (CropOptimalParameters.ph (CropConfig.optimal config))
                           + ParameterRange.max
                               (CropOptimalParameters.ph (CropConfig.optimal config)))
                          / 2) > 0.4)
    then [BalanceRec] else [].
Proof.
  unfold generateRecommendations, parameterKeys, Math.abs.
  cbn [fold_left]. rewrite !optimal_no_step. reflexivity.
Qed.

Lemma optimal_growthMultiplier : growthMultiplier params config = 1.
Proof.
  unfold growthMultiplier.
  pose proof (Hopt airTemperature) as Ha.
  pose proof (Hopt lightIntensity) as Hl.
  pose proof (Hopt co2Level) as Hc.
  unfold inOptimal in Ha, Hl, Hc. simpl in Ha, Hl, Hc.
  repeat case_decide; lra.
Qed.

End AllOptimal.

Lemma centred_distance (v lo hi : R) :
  lo <= v <= hi -> Rabs (v - (lo + hi) / 2) <= (hi - lo) / 2.
Proof. intros Hv. apply Rabs_le. lra. Qed.

(** C2, as the code has it.  For a profile satisfying the invariants, with
    every reading inside its optimal range and a whole number of days as
    optimal growth time, the result is: 100 percent, viable, the optimal
    growth time, no issue, and no raise or lower directive.  The
    recommendations are either empty or exactly the combined pH/EC advisory:
    empty when EC is within 0.79 of the midpoint of its optimal range or pH
    within 0.39 of its own, the advisory when EC is at least 0.81 and pH at
    least 0.41 away; the advisory needs an EC optimal range wider than 1.58
    and a pH optimal range wider than 0.78.  (The thresholds of the source
    are 0.8 and 0.4, tested in double precision; the hundredth on either
    side of them is left open.) *)
Theorem all_optimal_result
    (registry : gmap string CropConfig.t) (params : Parameters.t)
    (config : CropConfig.t) :
  registry !! Parameters.cropType params = Some config ->
  validProfile config ->
  (forall key,
      inOptimal (valueOf params key) (rangeOf (CropConfig.optimal config) key)) ->
  (exists n : Z, GrowthTime.optimal (CropConfig.growthTime config) = IZR n) ->
  exists r : SimulationResult.t,
    simulateGrowth registry params = Normal r
    /\ SimulationResult.yieldPercentage r = 100%Z
    /\ SimulationResult.isViable r = true
    /\ SimulationResult.growthTime r
       = GrowthTime.optimal (CropConfig.growthTime config)
    /\ SimulationResult.issues r = []
    /\ (SimulationResult.recommendations r = []
        \/ SimulationResult.recommendations r = [BalanceRec])
    /\ (Rabs (Parameters.ec params
            - (ParameterRange.min
                 (CropOptimalParameters.ec (CropConfig.optimal config))
               + ParameterRange.max
                   (CropOptimalParameters.ec (CropConfig.optimal config))) / 2) <= 0.79 \/ Rabs (Parameters.ph params
            - (ParameterRange.min
                 (CropOptimalParameters.ph (CropConfig.optimal config))
               + ParameterRange.max
                   (CropOptimalParameters.ph (CropConfig.optimal config))) / 2) <= 0.39 ->
        SimulationResult.recommendations r = [])
    /\ (Rabs (Parameters.ec params
            - (ParameterRange.min
                 (CropOptimalParameters.ec (CropConfig.optimal config))
               + ParameterRange.max
                   (CropOptimalParameters.ec (CropConfig.optimal config))) / 2) >= 0.81 /\ Rabs (Parameters.ph params
            - (ParameterRange.min
                 (CropOptimalParameters.ph (CropConfig.optimal config))
               + ParameterRange.max
                   (CropOptimalParameters.ph (CropConfig.optimal config))) / 2) >= 0.41 ->
        SimulationResult.recommendations r = [BalanceRec])
    /\ (SimulationResult.recommendations r = [BalanceRec] ->
        ParameterRange.max (CropOptimalParameters.ec (CropConfig.optimal config))
        - ParameterRange.min (CropOptimalParameters.ec (CropConfig.optimal config))
        > 1.58
        /\ ParameterRange.max
             (CropOptimalParameters.ph (CropConfig.optimal config))
           - ParameterRange.min
               (CropOptimalParameters.ph (CropConfig.optimal config))
           > 0.78).
Proof.
  intros Hlookup Hvalid Hopt [n Hn].
  destruct (simulateGrowth_closed registry params config Hlookup)
    as (r & Hr & Hv & Hpct & _ & _ & Htime & Hissues & Hrecs).
  exists r. split; [exact Hr |].
  split; [rewrite Hpct; now apply optimal_percentage |].
  split; [rewrite Hv; now apply optimal_is_viable |].
  split; [| split].
  - rewrite Htime, calculateGrowthTime_closed.
    rewrite optimal_growthMultiplier by assumption.
    rewrite Hn, Rmult_1_r, round_IZR. apply Rmin_left.
    destruct Hvalid as (_ & Hgt & _). lra.
  - rewrite Hissues.
    rewrite !flat_map_all_nil; [reflexivity | |].
    + now apply optimal_no_yield_issue.
    + now apply optimal_no_critical_issue.
  - rewrite Hrecs, optimal_recommendations by assumption.
    pose proof (centred_distance _ _ _
                  ltac:(pose proof (Hopt ec) as H; unfold inOptimal in H;
                        simpl in H; split; [apply Rge_le |]; apply H)) as Hec.
    pose proof (centred_distance _ _ _
                  ltac:(pose proof (Hopt ph) as H; unfold inOptimal in H;
                        simpl in H; split; [apply Rge_le |]; apply H)) as Hph.
    case_decide as Hfar.
    + split; [now right |]. split; [intros Hnear; lra |].
      split; [reflexivity |]. intros _. lra.
    + split; [now left |]. split; [reflexivity |].
      split; [intros Hboth; exfalso; apply Hfar; lra |].
      intros Habs. discriminate Habs.
Qed.

Lemma sampleParams_optimal (key : ParameterKey) :
  inOptimal (valueOf sampleParams key)
    (rangeOf (CropConfig.optimal sampleConfig) key).
Proof. unfold inOptimal. destruct key; simpl; lra. Qed.

(** At the sample profile with the default parameters, EC on the midpoint of
    its optimal range. *)
Lemma all_optimal_result_witness :
  exists r : SimulationResult.t,
    simulateGrowth sampleRegistry sampleParams = Normal r
    /\ SimulationResult.yieldPercentage r = 100%Z
    /\ SimulationResult.isViable r = true
    /\ SimulationResult.growthTime r = 30
    /\ SimulationResult.issues r = []
    /\ SimulationResult.recommendations r = [].
Proof.
  destruct (all_optimal_result sampleRegistry sampleParams sampleConfig)
    as (r & Hr & Hpct & Hv & Htime & Hissues & _ & Hnear & _).
  - apply lookup_singleton_eq.
  - exact sampleConfig_valid.
  - exact sampleParams_optimal.
  - exists 30%Z. reflexivity.
  - exists r. repeat (split; [assumption |]).
    apply Hnear. left. simpl. unfold Rabs. destruct (Rcase_abs _); lra.
Defined.

Lemma wideConfig_valid : validProfile wideConfig.
Proof.
  split; [| simpl; lra].
  intros key. unfold validRange.
  destruct key; simpl; (split; [lra |]);
    split; intros c Hc; try discriminate Hc; injection Hc as <-; lra.
Qed.

Lemma edgeParams_optimal (key : ParameterKey) :
  inOptimal (valueOf edgeParams key)
    (rangeOf (CropConfig.optimal wideConfig) key).
Proof. unfold inOptimal. destruct key; simpl; lra. Qed.

(** C2 as stated fails.  With pH and EC on the lower ends of wide optimal
    ranges every reading is optimal, yet the combined pH/EC advisory is
    issued; and an optimal growth time of thirty and a half days comes back
    rounded. *)
Lemma all_optimal_still_advised :
  wideRegistry !! Parameters.cropType edgeParams = Some wideConfig
  /\ validProfile wideConfig
  /\ (forall key,
        inOptimal (valueOf edgeParams key)
          (rangeOf (CropConfig.optimal wideConfig) key))
  /\ exists r : SimulationResult.t,
       simulateGrowth wideRegistry edgeParams = Normal r
       /\ SimulationResult.recommendations r = [BalanceRec]
       /\ SimulationResult.recommendations r <> []
       /\ SimulationResult.growthTime r = 31
       /\ SimulationResult.growthTime r
          <> GrowthTime.optimal (CropConfig.growthTime wideConfig).
Proof.
  assert (Hlookup :
            wideRegistry !! Parameters.cropType edgeParams = Some wideConfig)
    by apply lookup_singleton_eq.
  split; [exact Hlookup |].
  split; [exact wideConfig_valid |].
  split; [exact edgeParams_optimal |].
  destruct (simulateGrowth_closed wideRegistry edgeParams wideConfig Hlookup)
    as (r & Hr & _ & _ & _ & _ & Htime & _ & Hrecs).
  assert (Hadv : SimulationResult.recommendations r = [BalanceRec]).
  { rewrite Hrecs.
    rewrite (optimal_recommendations edgeParams wideConfig edgeParams_optimal).
    case_decide as Hfar; [reflexivity |].
    exfalso. apply Hfar. simpl. unfold Rabs.
    split; destruct (Rcase_abs _); lra. }
  assert (Hdays : SimulationResult.growthTime r = 31).
  { rewrite Htime, calculateGrowthTime_closed.
    rewrite (optimal_growthMultiplier edgeParams wideConfig edgeParams_optimal).
    assert (Hround : Math.round
                       (GrowthTime.optimal (CropConfig.growthTime wideConfig) * 1)
                     = 31%Z).
    { unfold Math.round. apply Zfloor_eq. simpl. lra. }
    rewrite Hround. apply Rmin_left. simpl. lra. }
  exists r. split; [exact Hr |]. split; [exact Hadv |].
  split; [rewrite Hadv; discriminate |].
  split; [exact Hdays |].
  rewrite Hdays. simpl. lra.
Qed.

(** * Further properties of the service *)

(** ** Outside the optimal range: the exact penalty is strict *)

(** Over the reals a value outside the optimal range has a score, and so an
    impact, strictly below 1.  (In the source's doubles a value one unit in
    the last place outside the range can score exactly 1.) *)

Lemma clamp_below_one (x : R) : x < 1 -> clamp x 0 1 < 1.
Proof.
  intros Hx. unfold clamp, Math.max, Math.min, Rmax, Rmin.
  repeat destruct (Rle_dec _ _); lra.
Qed.

Lemma linearScore_below_one (value : R) (limits : ParameterRange.t) :
  ~ inOptimal value limits -> linearScore value limits < 1.
Proof.
  intros Hout. unfold inOptimal in Hout. unfold linearScore.
  repeat case_decide; try lra; apply clamp_below_one.
  - apply Rmult_lt_reg_r with (ParameterRange.min limits - cminOf limits);
      [lra |].
    unfold Rdiv. rewrite Rmult_assoc, Rinv_l by lra. lra.
  - apply Rmult_lt_reg_r with (cmaxOf limits - ParameterRange.max limits);
      [lra |].
    unfold Rdiv. rewrite Rmult_assoc, Rinv_l by lra. lra.
Qed.

Lemma impactFormula_below_one (key : ParameterKey) (value : R)
    (limits : ParameterRange.t) :
  ~ inOptimal value limits -> impactFormula key value limits < 1.
Proof.
  intros Hout. unfold impactFormula.
  pose proof (linearScore_below_one value limits Hout).
  pose proof (floored_score_range value limits).
  pose proof (weight_range key).
  rewrite <- (Rpower_one_base (1 + PARAM_WEIGHTS key)) at 2.
  apply Rlt_Rpower_l; [lra |].
  split; [lra |]. apply Rmax_lub_lt; lra.
Qed.

Lemma yieldIssueOf_outside (params : Parameters.t) (config : CropConfig.t)
    (key : ParameterKey) :
  yieldIssueOf params config key
  = if decide (inOptimal (valueOf params key)
                 (rangeOf (CropConfig.optimal config) key))
    then []
    else [YieldIssue (getParameterName key) (valueOf params key)
            (ParameterRange.min (rangeOf (CropConfig.optimal config) key))
            (ParameterRange.max (rangeOf (CropConfig.optimal config) key))
            (Math.round
               (impactFormula key (valueOf params key)
                  (rangeOf (CropConfig.optimal config) key) * 100))].
Proof.
  unfold yieldIssueOf. case_decide as Hin; [reflexivity |].
  case_decide as Hlt; [reflexivity |].
  exfalso. apply Hlt. now apply impactFormula_below_one.
Qed.

Lemma yieldIssueOf_shape (params : Parameters.t) (config : CropConfig.t)
    (key : ParameterKey) :
  yieldIssueOf params config key = []
  \/ (~ inOptimal (valueOf params key)
         (rangeOf (CropConfig.optimal config) key)
      /\ exists pc : Z,
           (0 <= pc <= 100)%Z
           /\ yieldIssueOf params config key
              = [YieldIssue (getParameterName key) (valueOf params key)
                   (ParameterRange.min (rangeOf (CropConfig.optimal config) key))
                   (ParameterRange.max (rangeOf (CropConfig.optimal config) key))
                   pc]).
Proof.
  unfold yieldIssueOf. case_decide as Hin; [now left |].
  case_decide as Hlt; [| now left].
  right. split; [exact Hin |]. eexists. split; [| reflexivity].
  apply round_percent_range.
  pose proof (impactFormula_range key (valueOf params key)
                (rangeOf (CropConfig.optimal config) key)).
  pose proof (Rpower_pos 0.01 (1 + PARAM_WEIGHTS key)).
  lra.
Qed.

(** X2.  [calculateYield] keeps the issues it is given and appends only
    yield issues, in key order and at most one per parameter: none for a
    parameter inside its optimal range, and for one outside at most the issue
    carrying its name, its value, its optimal bounds and a percentage between
    0 and 100. *)
Theorem calculateYield_issues
    (params : Parameters.t) (config : CropConfig.t) (issues : list message) :
  exists (pct : Z) (pushed : ParameterKey -> list message),
    calculateYield params config issues
    = Normal (pct, issues ++ flat_map pushed parameterKeys)
    /\ forall key,
         pushed key = []
         \/ (~ (ParameterRange.min (rangeOf (CropConfig.optimal config) key)
                <= valueOf params key
                <= ParameterRange.max (rangeOf (CropConfig.optimal config) key))
             /\ exists pc : Z,
                  (0 <= pc <= 100)%Z
                  /\ pushed key
                     = [YieldIssue (getParameterName key) (valueOf params key)
                          (ParameterRange.min
                             (rangeOf (CropConfig.optimal config) key))
                          (ParameterRange.max
                             (rangeOf (CropConfig.optimal config) key))
                          pc]).
Proof.
  unfold calculateYield. rewrite finalYieldMultiplier_closed.
  cbn [mbind completion_bind fst snd].
  eexists. exists (yieldIssueOf params config).
  split; [reflexivity |]. intros key.
  destruct (yieldIssueOf_shape params config key) as [Hnil | (Hout & Hpc)];
    [now left | right].
  split; [| exact Hpc].
  unfold inOptimal in Hout. lra.
Qed.

(** ** The recommendation generator *)

Lemma recommendationStep_closed (params : Parameters.t) (config : CropConfig.t)
    (recs : list message) (key : ParameterKey) :
  recommendationStep params config recs key
  = recs ++ directiveOf params config key.
Proof.
  unfold recommendationStep, directiveOf.
  repeat case_decide; try reflexivity. now rewrite app_nil_r.
Qed.

Lemma recommendation_fold (params : Parameters.t) (config : CropConfig.t)
    (keys : list ParameterKey) (recs : list message) :
  fold_left (recommendationStep params config) keys recs
  = recs ++ flat_map (directiveOf params config) keys.
Proof.
  revert recs. induction keys as [| key keys IH]; intros recs; simpl.
  - now rewrite app_nil_r.
  - now rewrite IH, recommendationStep_closed, <- app_assoc.
Qed.

Lemma directiveOf_length (params : Parameters.t) (config : CropConfig.t)
    (key : ParameterKey) :
  (length (directiveOf params config key) <= 1)%nat.
Proof. unfold directiveOf. repeat case_decide; simpl; lia. Qed.

Lemma flat_map_length_bound {A B : Type} (f : A -> list B) (l : list A) :
  (forall x, (length (f x) <= 1)%nat) ->
  (length (flat_map f l) <= length l)%nat.
Proof.
  intros Hf. induction l as [| x l IH]; simpl; [lia |].
  rewrite length_app. specialize (Hf x). lia.
Qed.

(** The advisory [generateRecommendations] pushes last, if any. *)
Lemma generateRecommendations_closed
    (params : Parameters.t) (config : CropConfig.t) (recs : list message) :
  exists advisory : list message,
    generateRecommendations params config recs
    = recs ++ flat_map (directiveOf params config) parameterKeys ++ advisory
    /\ (advisory = [] \/ advisory = [BalanceRec]).
Proof.
  unfold generateRecommendations. rewrite recommendation_fold.
  case_decide.
  - exists [BalanceRec]. split; [now rewrite app_assoc | now right].
  - exists []. split; [now rewrite app_nil_r | now left].
Qed.

Lemma directive_not_advisory (params : Parameters.t) (config : CropConfig.t)
    (m : message) :
  In m (flat_map (directiveOf params config) parameterKeys) -> m <> BalanceRec.
Proof.
  intros Hm. apply in_flat_map in Hm as (key & _ & Hm).
  unfold directiveOf in Hm.
  repeat case_decide; simpl in Hm; try contradiction;
    destruct Hm as [<- | []]; discriminate.
Qed.

(** X4.  [generateRecommendations] keeps the entries it is given, appends at most
    one directive per parameter (in key order) and then at most the combined
    pH/EC advisory, which can only come last: at most ten entries are
    added. *)
Theorem generateRecommendations_shape
    (params : Parameters.t) (config : CropConfig.t) (recs : list message) :
  exists directives advisory : list message,
    generateRecommendations params config recs = recs ++ directives ++ advisory
    /\ directives = flat_map (directiveOf params config) parameterKeys
    /\ (length directives <= 9)%nat
    /\ (advisory = [] \/ advisory = [BalanceRec])
    /\ (forall m, In m directives -> m <> BalanceRec).
Proof.
  destruct (generateRecommendations_closed params config recs)
    as (advisory & Heq & Hadv).
  exists (flat_map (directiveOf params config) parameterKeys), advisory.
  split; [exact Heq |]. split; [reflexivity |]. split.
  { apply (flat_map_length_bound _ parameterKeys), directiveOf_length. }
  split; [exact Hadv |].
  intros m. apply directive_not_advisory.
Qed.

Lemma getParameterName_injective (key key' : ParameterKey) :
  getParameterName key = getParameterName key' -> key = key'.
Proof. destruct key, key'; simpl; intros H; try reflexivity; discriminate H. Qed.

Lemma directive_present_iff (params : Parameters.t) (config : CropConfig.t)
    (key : ParameterKey) :
  (exists m, In m (flat_map (directiveOf params config) parameterKeys)
             /\ isDirectiveOf (getParameterName key) m)
  <-> ~ inOptimal (valueOf params key)
        (rangeOf (CropConfig.optimal config) key).
Proof.
  unfold inOptimal. split.
  - intros (m & Hm & Hname).
    apply in_flat_map in Hm as (key' & _ & Hm).
    unfold directiveOf in Hm.
    repeat case_decide; simpl in Hm; try contradiction;
      destruct Hm as [<- | []]; simpl in Hname;
      apply getParameterName_injective in Hname; subst key'; lra.
  - intros Hout.
    destruct (directiveOf params config key) as [| m l] eqn:Hd.
    + exfalso. unfold directiveOf in Hd.
      repeat case_decide; try discriminate Hd. lra.
    + exists m. split.
      * apply in_flat_map. exists key. split; [apply every_key_listed |].
        rewrite Hd. now left.
      * unfold directiveOf in Hd.
        repeat case_decide; try discriminate Hd;
          injection Hd as <- <-; reflexivity.
Qed.

Lemma critical_issue_not_yield (params : Parameters.t) (config : CropConfig.t)
    (name : string) (m : message) :
  In m (flat_map (criticalIssueOf params config) parameterKeys) ->
  isCriticalIssue m /\ ~ isYieldIssueOf name m.
Proof.
  intros Hm. apply in_flat_map in Hm as (key & _ & Hm).
  unfold criticalIssueOf in Hm.
  case_decide; simpl in Hm; [| contradiction].
  destruct Hm as [<- | []]. simpl. tauto.
Qed.

Lemma yield_issue_not_critical (params : Parameters.t) (config : CropConfig.t)
    (m : message) :
  In m (flat_map (yieldIssueOf params config) parameterKeys) ->
  ~ isCriticalIssue m.
Proof.
  intros Hm. apply in_flat_map in Hm as (key & _ & Hm).
  unfold yieldIssueOf in Hm.
  repeat case_decide; simpl in Hm; try contradiction.
  destruct Hm as [<- | []]. simpl. tauto.
Qed.

(** ** The fields of a result agree with each other *)

(** X5.  In every result, a parameter has a raise or lower directive among
    the recommendations exactly when its value lies outside its optimal
    range, and every parameter with a yield issue among the issues has such a
    directive. *)
Theorem issues_match_recommendations
    (registry : gmap string CropConfig.t) (params : Parameters.t)
    (config : CropConfig.t) :
  registry !! Parameters.cropType params = Some config ->
  exists r : SimulationResult.t,
    simulateGrowth registry params = Normal r
    /\ forall key,
         ((exists m, In m (SimulationResult.recommendations r)
                     /\ isDirectiveOf (getParameterName key) m)
          <-> ~ (ParameterRange.min (rangeOf (CropConfig.optimal config) key)
                 <= valueOf params key
                 <= ParameterRange.max
                      (rangeOf (CropConfig.optimal config) key)))
         /\ ((exists m, In m (SimulationResult.issues r)
                        /\ isYieldIssueOf (getParameterName key) m)
             -> exists m, In m (SimulationResult.recommendations r)
                          /\ isDirectiveOf (getParameterName key) m).
Proof.
  intros Hlookup.
  destruct (simulateGrowth_closed registry params config Hlookup)
    as (r & Hr & _ & _ & _ & _ & _ & Hissues & Hrecs).
  exists r. split; [exact Hr |]. intros key.
  assert (Hdir :
            (exists m, In m (SimulationResult.recommendations r)
                       /\ isDirectiveOf (getParameterName key) m)
            <-> ~ inOptimal (valueOf params key)
                  (rangeOf (CropConfig.optimal config) key)).
  { rewrite <- directive_present_iff, Hrecs.
    destruct (generateRecommendations_closed params config [])
      as (advisory & -> & Hadv).
    cbn [app]. split.
    - intros (m & Hm & Hname). exists m. split; [| exact Hname].
      apply in_app_or in Hm as [Hm | Hm]; [exact Hm |].
      destruct Hadv as [-> | ->]; simpl in Hm; [contradiction |].
      destruct Hm as [<- | []]. contradiction.
    - intros (m & Hm & Hname). exists m. split; [| exact Hname].
      apply in_or_app. now left. }
  split.
  - rewrite Hdir. unfold inOptimal. split; intros Hout Hin; apply Hout; lra.
  - intros (m & Hm & Hname). apply Hdir.
    rewrite Hissues in Hm. apply in_app_or in Hm as [Hm | Hm].
    + apply (critical_issue_not_yield _ _ (getParameterName key)) in Hm.
      tauto.
    + apply in_flat_map in Hm as (key' & _ & Hm).
      destruct (yieldIssueOf_shape params config key')
        as [Hnil | (Hout & pc & _ & Heq)].
      * rewrite Hnil in Hm. contradiction.
      * rewrite Heq in Hm. destruct Hm as [<- | []]. simpl in Hname.
        apply getParameterName_injective in Hname. now subst key'.
Qed.

Lemma issues_match_recommendations_witness :
  exists r : SimulationResult.t,
    simulateGrowth sampleRegistry acidParams = Normal r
    /\ exists m, In m (SimulationResult.recommendations r)
                 /\ isDirectiveOf (getParameterName ph) m.
Proof.
  destruct (issues_match_recommendations sampleRegistry acidParams sampleConfig)
    as (r & Hr & Hkeys); [apply lookup_singleton_eq |].
  exists r. split; [exact Hr |].
  destruct (Hkeys ph) as [Hd _]. apply Hd. simpl. lra.
Defined.

(** X6.  A result is viable exactly when its issues contain no critical issue;
    the critical issues, if any, precede every yield issue. *)
Theorem viable_iff_no_critical_issue
    (registry : gmap string CropConfig.t) (params : Parameters.t)
    (config : CropConfig.t) :
  registry !! Parameters.cropType params = Some config ->
  exists (r : SimulationResult.t) (criticals yields : list message),
    simulateGrowth registry params = Normal r
    /\ SimulationResult.issues r = criticals ++ yields
    /\ (forall m, In m criticals -> isCriticalIssue m)
    /\ (forall m, In m yields -> ~ isCriticalIssue m)
    /\ (SimulationResult.isViable r = true <-> criticals = []).
Proof.
  intros Hlookup.
  destruct (simulateGrowth_closed registry params config Hlookup)
    as (r & Hr & Hv & _ & _ & _ & _ & Hissues & _).
  exists r, (flat_map (criticalIssueOf params config) parameterKeys),
    (flat_map (yieldIssueOf params config) parameterKeys).
  split; [exact Hr |]. split; [exact Hissues |].
  split; [intros m Hm;
          now destruct (critical_issue_not_yield params config "pH" m Hm) |].
  split; [intros m; apply yield_issue_not_critical |].
  rewrite Hv, <- not_false_iff_true, checkViability_false_iff. split.
  - intros Hnone. apply flat_map_all_nil. intros key.
    unfold criticalIssueOf. case_decide as Hkey; [| reflexivity].
    exfalso. apply Hnone. now exists key.
  - intros Hnil [key Hkey].
    assert (Hin : In (CriticalIssue (getParameterName key) (valueOf params key)
                        (cminOf (rangeOf (CropConfig.optimal config) key))
                        (cmaxOf (rangeOf (CropConfig.optimal config) key)))
                     (flat_map (criticalIssueOf params config) parameterKeys)).
    { apply in_flat_map. exists key. split; [apply every_key_listed |].
      unfold criticalIssueOf. case_decide; [now left | contradiction]. }
    rewrite Hnil in Hin. contradiction.
Qed.

Lemma viable_iff_no_critical_issue_witness :
  exists (r : SimulationResult.t) (criticals yields : list message),
    simulateGrowth sampleRegistry sampleParams = Normal r
    /\ SimulationResult.issues r = criticals ++ yields
    /\ (forall m, In m criticals -> isCriticalIssue m)
    /\ (forall m, In m yields -> ~ isCriticalIssue m)
    /\ (SimulationResult.isViable r = true <-> criticals = []).
Proof.
  apply (viable_iff_no_critical_issue sampleRegistry sampleParams sampleConfig).
  apply lookup_singleton_eq.
Defined.

(** X7.  With the range invariants, a parameter beyond a critical bound is also
    outside its optimal range, and the yield issue pushed for it reports an
    impact of 0 percent. *)
Theorem lethal_parameter_reported_twice
    (params : Parameters.t) (config : CropConfig.t) (key : ParameterKey) :
  validRange (rangeOf (CropConfig.optimal config) key) ->
  beyondCritical (valueOf params key) (rangeOf (CropConfig.optimal config) key) ->
  exists (pct : Z) (issues : list message),
    calculateYield params config [] = Normal (pct, issues)
    /\ In (YieldIssue (getParameterName key) (valueOf params key)
             (ParameterRange.min (rangeOf (CropConfig.optimal config) key))
             (ParameterRange.max (rangeOf (CropConfig.optimal config) key))
             0%Z)
          issues
    /\ In (CriticalIssue (getParameterName key) (valueOf params key)
             (cminOf (rangeOf (CropConfig.optimal config) key))
             (cmaxOf (rangeOf (CropConfig.optimal config) key)))
          (checkViability params config []).2.
Proof.
  intros Hvalid Hbeyond.
  destruct (beyondCritical_score_zero _ _ Hvalid Hbeyond) as [Hout Hzero].
  unfold calculateYield. rewrite finalYieldMultiplier_closed.
  cbn [mbind completion_bind fst snd app].
  eexists. eexists. split; [reflexivity |]. split.
  - apply in_flat_map. exists key. split; [apply every_key_listed |].
    rewrite yieldIssueOf_outside. case_decide; [contradiction |].
    left. f_equal. unfold impactFormula. rewrite Hzero, Rmax_left by lra.
    apply round_below_half.
    pose proof (Rpower_pos 0.01 (1 + PARAM_WEIGHTS key)).
    pose proof (weight_range key).
    pose proof (floor_impact_percent_small (1 + PARAM_WEIGHTS key)
                  ltac:(lra)).
    lra.
  - unfold checkViability. rewrite checkViability_fold. cbn [fst snd app].
    apply in_flat_map. exists key. split; [apply every_key_listed |].
    unfold criticalIssueOf. case_decide; [now left | contradiction].
Qed.

Lemma lethal_parameter_reported_twice_witness :
  exists (pct : Z) (issues : list message),
    calculateYield acidParams sampleConfig [] = Normal (pct, issues)
    /\ In (YieldIssue "pH" 3.5 5.5 6.5 0%Z) issues
    /\ In (CriticalIssue "pH" 3.5 4 8) (checkViability acidParams sampleConfig []).2.
Proof.
  apply (lethal_parameter_reported_twice acidParams sampleConfig ph).
  - destruct sampleConfig_valid as [Hranges _]. apply (Hranges ph).
  - left. unfold cminOf. simpl. lra.
Defined.

(** ** Absolute yield *)

Lemma yieldPercentageOf_range (params : Parameters.t) (config : CropConfig.t) :
  (0 <= yieldPercentageOf params config <= 100)%Z.
Proof.
  pose proof (impactProduct_range params config) as Hprod.
  assert (Hfac : 0 < interactionFactor params config <= 1)
    by (unfold interactionFactor; case_decide; lra).
  unfold yieldPercentageOf. rewrite max_round_commute.
  apply round_percent_range.
  unfold Math.max. split; [apply Rmax_l | apply Rmax_lub; nra].
Qed.

Lemma round_nonnegative (x : R) : 0 <= x -> (0 <= Math.round x)%Z.
Proof.
  intros Hx. rewrite <- (round_IZR 0). apply round_mono. exact Hx.
Qed.

(** X8.  For a profile with a non-negative [maxYield], the expected grams lie
    between 0 and [round(maxYield)], and the yield per square metre is
    non-negative and within 0.005 of the expected grams in kilograms. *)
Theorem expectedGrams_bounds
    (registry : gmap string CropConfig.t) (params : Parameters.t)
    (config : CropConfig.t) :
  registry !! Parameters.cropType params = Some config ->
  CropConfig.maxYield config >= 0 ->
  exists r : SimulationResult.t,
    simulateGrowth registry params = Normal r
    /\ (0 <= SimulationResult.expectedGrams r
        <= Math.round (CropConfig.maxYield config))%Z
    /\ 0 <= SimulationResult.yieldPerSquareMeter r
    /\ Rabs (SimulationResult.yieldPerSquareMeter r
             - IZR (SimulationResult.expectedGrams r) / 1000) <= 0.005.
Proof.
  intros Hlookup Hmax.
  destruct (simulateGrowth_closed registry params config Hlookup)
    as (r & Hr & _ & _ & Hgrams & Harea & _).
  destruct (yieldPercentageOf_range params config) as [Hp0 Hp100].
  apply IZR_le in Hp0, Hp100.
  exists r. split; [exact Hr |].
  assert (Hg : (0 <= SimulationResult.expectedGrams r
                <= Math.round (CropConfig.maxYield config))%Z).
  { rewrite Hgrams. case_decide as Hz.
    - rewrite Hz, Rmult_0_l. split.
      + apply round_nonnegative. lra.
      + apply round_mono. lra.
    - split.
      + apply round_nonnegative. nra.
      + apply round_mono. nra. }
  split; [exact Hg |].
  destruct Hg as [Hg0 _]. apply IZR_le in Hg0.
  pose proof (Zfloor_bound
                (IZR (SimulationResult.expectedGrams r) / 1000 * 100 + / 2))
    as Hfl.
  fold (Math.round (IZR (SimulationResult.expectedGrams r) / 1000 * 100)) in Hfl.
  pose proof (round_nonnegative
                (IZR (SimulationResult.expectedGrams r) / 1000 * 100)
                ltac:(lra)) as Hr0.
  apply IZR_le in Hr0.
  rewrite Harea. split; [lra |].
  apply Rabs_le. lra.
Qed.

Lemma expectedGrams_bounds_witness :
  exists r : SimulationResult.t,
    simulateGrowth sampleRegistry sampleParams = Normal r
    /\ (0 <= SimulationResult.expectedGrams r <= Math.round 200)%Z
    /\ 0 <= SimulationResult.yieldPerSquareMeter r
    /\ Rabs (SimulationResult.yieldPerSquareMeter r
             - IZR (SimulationResult.expectedGrams r) / 1000) <= 0.005.
Proof.
  apply (expectedGrams_bounds sampleRegistry sampleParams sampleConfig).
  - apply lookup_singleton_eq.
  - simpl. lra.
Defined.

(** ** The growth-time estimator, continued *)




(** ** The linear score, piece by piece *)

Lemma clamp_inside (x : R) : 0 <= x <= 1 -> clamp x 0 1 = x.
Proof.
  intros Hx. unfold clamp, Math.max, Math.min, Rmax, Rmin.
  repeat destruct (Rle_dec _ _); lra.
Qed.

Lemma ratio_unit_interval (a d : R) : 0 < a < d -> 0 < a / d < 1.
Proof.
  intros [Ha Hd].
  assert (0 < / d) by (apply Rinv_0_lt_compat; lra).
  split; [unfold Rdiv; nra |].
  apply Rmult_lt_reg_r with d; [lra |].
  unfold Rdiv. rewrite Rmult_assoc, Rinv_l by lra. lra.
Qed.

Lemma ratio_nonpositive (a d : R) : a <= 0 -> 0 < d -> a / d <= 0.
Proof.
  intros Ha Hd.
  assert (0 < / d) by (apply Rinv_0_lt_compat; lra).
  unfold Rdiv. nra.
Qed.

(** X10.  [computeLinearNormalized] piece by piece.  Strictly between a
    critical bound and the optimal bound on its side the score is the plain
    interpolation quotient, which lies in [[0, 1]] (the clamp is idle); at or
    beyond the critical bound it is 0; inside the optimal range it is 1. *)
Theorem computeLinearNormalized_pieces (value min max cmin cmax : R) :
  (cmin < value -> value < min ->
   computeLinearNormalized value min max cmin cmax
   = Normal ((value - cmin) / (min - cmin))
   /\ 0 <= (value - cmin) / (min - cmin) <= 1)
  /\ (value <= cmin -> value < min ->
      computeLinearNormalized value min max cmin cmax = Normal 0)
  /\ (min <= value -> max < value -> value < cmax ->
      computeLinearNormalized value min max cmin cmax
      = Normal ((cmax - value) / (cmax - max))
      /\ 0 <= (cmax - value) / (cmax - max) <= 1)
  /\ (min <= value -> max < value -> cmax <= value ->
      computeLinearNormalized value min max cmin cmax = Normal 0)
  /\ (min <= value -> value <= max ->
      computeLinearNormalized value min max cmin cmax = Normal 1).
Proof.
  unfold computeLinearNormalized, Math.div.
  split; [| split; [| split; [| split]]].
  - intros H1 H2.
    pose proof (ratio_unit_interval (value - cmin) (min - cmin) ltac:(lra)).
    repeat case_decide; try lra.
    cbn [mbind completion_bind]. rewrite clamp_inside by lra. split; [easy | lra].
  - intros H1 H2. repeat case_decide; try lra; try reflexivity.
    cbn [mbind completion_bind]. f_equal. apply clamp_nonpositive.
    apply ratio_nonpositive; lra.
  - intros H1 H2 H3.
    pose proof (ratio_unit_interval (cmax - value) (cmax - max) ltac:(lra)).
    repeat case_decide; try lra.
    cbn [mbind completion_bind]. rewrite clamp_inside by lra. split; [easy | lra].
  - intros H1 H2 H3. repeat case_decide; try lra; try reflexivity.
    cbn [mbind completion_bind]. f_equal. apply clamp_nonpositive.
    apply ratio_nonpositive; lra.
  - intros H1 H2. repeat case_decide; try lra. reflexivity.
Qed.

Lemma computeLinearNormalized_pieces_witness :
  computeLinearNormalized 5 5.5 6.5 4 8 = Normal ((5 - 4) / (5.5 - 4))
  /\ 0 <= (5 - 4) / (5.5 - 4) <= 1.
Proof.
  destruct (computeLinearNormalized_pieces 5 5.5 6.5 4 8) as (Hbelow & _).
  apply Hbelow; lra.
Defined.

(** ** Worse readings, lower yield *)

Lemma impactFormula_score_monotone (key : ParameterKey)
    (limits : ParameterRange.t) (v1 v2 : R) :
  linearScore v2 limits <= linearScore v1 limits ->
  impactFormula key v2 limits <= impactFormula key v1 limits.
Proof.
  intros HL. unfold impactFormula.
  pose proof (weight_range key).
  pose proof (floored_score_range v2 limits).
  apply Rle_Rpower_l; [lra |]. split; [lra |].
  apply Rmax_lub; [apply Rmax_l |].
  etransitivity; [exact HL | apply Rmax_r].
Qed.

Lemma deviation_complement (params : Parameters.t) (config : CropConfig.t)
    (key : ParameterKey) :
  deviation params config key = 1 - contribution params config key.
Proof.
  unfold deviation, contribution. case_decide; [lra |].
  apply Rabs_pos_eq.
  pose proof (impactFormula_range key (valueOf params key)
                (rangeOf (CropConfig.optimal config) key)).
  lra.
Qed.

Lemma fold_Rmult_pointwise {A : Type} (f g : A -> R) (l : list A) (a b : R) :
  (forall x, 0 < f x <= g x) -> 0 < a <= b ->
  0 < fold_left Rmult (map f l) a <= fold_left Rmult (map g l) b.
Proof.
  intros Hfg. revert a b. induction l as [| x l IH]; intros a b Hab; simpl.
  - exact Hab.
  - apply IH. specialize (Hfg x). nra.
Qed.

Section WorseReading.

Variables (config : CropConfig.t) (p1 p2 : Parameters.t).
Hypothesis Hranges : forall key,
  ParameterRange.min (rangeOf (CropConfig.optimal config) key)
  <= ParameterRange.max (rangeOf (CropConfig.optimal config) key).
Hypothesis Hworse : noCloser config p1 p2.

Lemma contribution_noCloser (key : ParameterKey) :
  contribution p2 config key <= contribution p1 config key.
Proof.
  specialize (Hranges key). specialize (Hworse key). cbv zeta in Hworse.
  pose proof (contribution_range p2 config key) as H2.
  destruct Hworse as [Heq | [Hin | [[H21 H1] | [H1 H12]]]].
  - unfold contribution. rewrite Heq. lra.
  - unfold contribution at 2. case_decide; [lra | contradiction].
  - unfold contribution, inOptimal. repeat case_decide; try lra.
    apply impactFormula_score_monotone.
    now apply linearScore_monotone_below.
  - unfold contribution, inOptimal. repeat case_decide; try lra.
    apply impactFormula_score_monotone.
    now apply linearScore_monotone_above.
Qed.

Lemma impactProduct_noCloser :
  impactProduct p2 config <= impactProduct p1 config.
Proof.
  unfold impactProduct.
  apply (fold_Rmult_pointwise (contribution p2 config)
           (contribution p1 config) parameterKeys 1 1); [| lra].
  intros key. split; [apply contribution_range | apply contribution_noCloser].
Qed.

Lemma interactionFactor_noCloser :
  interactionFactor p2 config <= interactionFactor p1 config.
Proof.
  unfold interactionFactor. rewrite !deviation_complement.
  pose proof (contribution_noCloser ec).
  pose proof (contribution_noCloser ph).
  repeat case_decide; lra.
Qed.

Lemma yieldPercentageOf_noCloser :
  (yieldPercentageOf p2 config <= yieldPercentageOf p1 config)%Z.
Proof.
  unfold yieldPercentageOf.
  apply Z.max_le_compat_l, round_mono.
  pose proof impactProduct_noCloser.
  pose proof interactionFactor_noCloser.
  pose proof (impactProduct_range p2 config).
  assert (0 < interactionFactor p2 config)
    by (unfold interactionFactor; case_decide; lra).
  nra.
Qed.

End WorseReading.

(** X11.  When every range has [min <= max], moving readings away from their
    optimal ranges (each one staying on its side) never raises the yield
    percentage. *)
Theorem worse_reading_never_raises_yield
    (config : CropConfig.t) (p1 p2 : Parameters.t) (issues : list message) :
  (forall key,
      ParameterRange.min (rangeOf (CropConfig.optimal config) key)
      <= ParameterRange.max (rangeOf (CropConfig.optimal config) key)) ->
  noCloser config p1 p2 ->
  exists (pct1 pct2 : Z) (issues1 issues2 : list message),
    calculateYield p1 config issues = Normal (pct1, issues1)
    /\ calculateYield p2 config issues = Normal (pct2, issues2)
    /\ (pct2 <= pct1)%Z.
Proof.
  intros Hranges Hworse.
  unfold calculateYield. rewrite !finalYieldMultiplier_closed.
  cbn [mbind completion_bind fst snd].
  do 4 eexists. split; [reflexivity |]. split; [reflexivity |].
  now apply yieldPercentageOf_noCloser.
Qed.

Lemma worse_reading_never_raises_yield_witness :
  exists (pct1 pct2 : Z) (issues1 issues2 : list message),
    calculateYield sampleParams sampleConfig [] = Normal (pct1, issues1)
    /\ calculateYield acidParams sampleConfig [] = Normal (pct2, issues2)
    /\ (pct2 <= pct1)%Z.
Proof.
  apply (worse_reading_never_raises_yield sampleConfig sampleParams acidParams).
  - intros key. destruct key; simpl; lra.
  - intros key. cbv zeta. destruct key;
      try (left; reflexivity).
    right. left. unfold inOptimal. simpl. lra.
Defined.

(** * The model, the rule base and the store *)

(** ** GrowthModel *)

(** X12.  [simulate] returns the service's result for the current parameters and
    caches it without touching the parameters; a later [setParameters] does
    not invalidate the cache, so [getResult] keeps returning the result of
    the last simulation. *)
Theorem simulate_caches_result
    (registry : gmap string CropConfig.t) (m m' : GrowthModel.t)
    (r : SimulationResult.t) (update : PartialParameters.t) :
  GrowthModel.simulate registry m = Normal (r, m') ->
  simulateGrowth registry (GrowthModel.getParameters m) = Normal r
  /\ GrowthModel.getResult m' = Some r
  /\ GrowthModel.getParameters m' = GrowthModel.getParameters m
  /\ GrowthModel.getResult (GrowthModel.setParameters m' update) = Some r
  /\ GrowthModel.getParameters (GrowthModel.setParameters m' update)
     = spread (GrowthModel.getParameters m) update.
Proof.
  unfold GrowthModel.simulate, GrowthModel.getParameters.
  destruct (simulateGrowth registry (GrowthModel.parameters m)) as [r0 | e |];
    cbn [mbind completion_bind]; intros Hsim; try discriminate Hsim.
  injection Hsim as -> <-. repeat split.
Qed.

Lemma simulate_caches_result_witness :
  exists (r : SimulationResult.t) (m' : GrowthModel.t),
    GrowthModel.simulate sampleRegistry GrowthModel.constructor = Normal (r, m')
    /\ GrowthModel.getResult
         (GrowthModel.setParameters m'
            (PartialParameters.mk None (Some 3.5) None None None None None None
               None None))
       = Some r
    /\ Parameters.ph
         (GrowthModel.getParameters
            (GrowthModel.setParameters m'
               (PartialParameters.mk None (Some 3.5) None None None None None
                  None None None)))
       = 3.5.
Proof.
  destruct (simulateGrowth_closed sampleRegistry
              (GrowthModel.getParameters GrowthModel.constructor) sampleConfig)
    as (r & Hr & _); [apply lookup_singleton_eq |].
  assert (Hsim : GrowthModel.simulate sampleRegistry GrowthModel.constructor
                 = Normal (r, GrowthModel.mk
                                (GrowthModel.parameters GrowthModel.constructor)
                                (Some r))).
  { unfold GrowthModel.simulate. unfold GrowthModel.getParameters in Hr.
    now rewrite Hr. }
  eexists. eexists. split; [exact Hsim |].
  destruct (simulate_caches_result _ _ _ _
              (PartialParameters.mk None (Some 3.5) None None None None None
                 None None None) Hsim)
    as (_ & _ & _ & Hcache & Hparams).
  split; [exact Hcache |]. rewrite Hparams. reflexivity.
Defined.

(** X13.  Selecting a crop the registry does not have makes the next [simulate]
    throw a [TypeError], whatever the model held before. *)
Theorem simulate_unknown_selection
    (registry : gmap string CropConfig.t) (m : GrowthModel.t)
    (update : PartialParameters.t) (crop : string) :
  PartialParameters.cropType update = Some crop ->
  registry !! crop = None ->
  exists e : JsError,
    GrowthModel.simulate registry (GrowthModel.setParameters m update) = Throw e
    /\ errorName e = "TypeError".
Proof.
  intros Hcrop Hnone.
  unfold GrowthModel.simulate, GrowthModel.setParameters, simulateGrowth.
  cbn [GrowthModel.parameters spread Parameters.cropType].
  rewrite Hcrop. cbn [default from_option]. unfold Datatypes.id.
  rewrite Hnone. cbn [mbind completion_bind].
  eexists. split; reflexivity.
Qed.

Lemma simulate_unknown_selection_witness :
  exists e : JsError,
    GrowthModel.simulate sampleRegistry
      (GrowthModel.setParameters GrowthModel.constructor
         (PartialParameters.mk (Some "arugula") None None None None None None
            None None None))
    = Throw e
    /\ errorName e = "TypeError".
Proof.
  apply (simulate_unknown_selection sampleRegistry GrowthModel.constructor
           (PartialParameters.mk (Some "arugula") None None None None None None
              None None None) "arugula").
  - reflexivity.
  - apply lookup_singleton_ne. discriminate.
Defined.

(** ** The simple rule base *)

(** X14.  The rule base is silent exactly when pH, EC, air temperature and
    solution temperature are all inside their fixed ranges (bounds
    included); it never returns more than four recommendations. *)
Theorem simple_rules_silent_iff (params : ExpertSystem.Parameters) :
  (ExpertSystem.generateRecommendations params = []
   <-> (5.5 <= ExpertSystem.ph params <= 6.5
        /\ 1.2 <= ExpertSystem.ec params <= 2.0
        /\ 18 <= ExpertSystem.airTemp params <= 24
        /\ 18 <= ExpertSystem.solutionTemp params <= 22))
  /\ (length (ExpertSystem.generateRecommendations params) <= 4)%nat.
Proof.
  unfold ExpertSystem.generateRecommendations.
  repeat case_decide; cbn [app length]; split; try lia;
    split; intros Hs; try discriminate Hs; try reflexivity; lra.
Qed.

(** X15.  The rule base reads only pH, EC and the two temperatures: light, CO2,
    humidity, water level and oxygen never change its answer. *)
Theorem simple_rules_ignore_rest (p q : ExpertSystem.Parameters) :
  ExpertSystem.ph p = ExpertSystem.ph q ->
  ExpertSystem.ec p = ExpertSystem.ec q ->
  ExpertSystem.airTemp p = ExpertSystem.airTemp q ->
  ExpertSystem.solutionTemp p = ExpertSystem.solutionTemp q ->
  ExpertSystem.generateRecommendations p
  = ExpertSystem.generateRecommendations q.
Proof.
  intros Hph Hec Hair Hsol.
  unfold ExpertSystem.generateRecommendations.
  now rewrite Hph, Hec, Hair, Hsol.
Qed.

Lemma simple_rules_ignore_rest_witness :
  ExpertSystem.generateRecommendations
    (ExpertSystem.mkParameters 6 1.5 20 20 12000 800 60 100 6)
  = ExpertSystem.generateRecommendations
      (ExpertSystem.mkParameters 6 1.5 20 20 0 0 0 0 0).
Proof.
  apply (simple_rules_ignore_rest
           (ExpertSystem.mkParameters 6 1.5 20 20 12000 800 60 100 6)
           (ExpertSystem.mkParameters 6 1.5 20 20 0 0 0 0 0));
    reflexivity.
Defined.

(** ** The measurement store *)

Lemma reducer_step (s : Store.State) (a : Store.Action) :
  Store.measurements (Store.reducer (Some s) a)
  = Store.measurements s
    ++ (if bool_decide (Store.type a = Store.ADD_MEASUREMENT)
        then [Store.payload a] else []).
Proof.
  unfold Store.reducer, Store.ADD_MEASUREMENT. cbn [default from_option].
  unfold Datatypes.id.
  case_bool_decide; case_decide; try contradiction; cbn.
  - reflexivity.
  - now rewrite app_nil_r.
Qed.

(** X16.  After any sequence of actions the store holds what it held before,
    followed by the payloads of the [ADD_MEASUREMENT] actions in dispatch
    order: nothing is dropped, reordered or added by another action type.  An
    undefined state counts as the empty store, and the action built by
    [addMeasurement] appends its measurement. *)
Theorem reducer_history (s : Store.State) (actions : list Store.Action) :
  Store.measurements
    (fold_left (fun st a => Store.reducer (Some st) a) actions s)
  = Store.measurements s
    ++ map Store.payload
         (List.filter
            (fun a => bool_decide (Store.type a = Store.ADD_MEASUREMENT))
            actions)
  /\ (forall a, Store.reducer None a = Store.reducer (Some Store.initialState) a)
  /\ (forall m,
        Store.measurements (Store.reducer (Some s) (Store.addMeasurement m))
        = Store.measurements s ++ [m]).
Proof.
  split; [| split].
  - revert s. induction actions as [| a actions IH]; intros s; simpl.
    + now rewrite app_nil_r.
    + rewrite IH, reducer_step.
      case_bool_decide; simpl; now rewrite <- app_assoc.
  - intros a. reflexivity.
  - intros m. rewrite reducer_step. reflexivity.
Qed.
